(** * patsy/categorical.py: level discovery and integer coding of categorical data

    A shallow embedding of [C], [_categorical_shape_fix],
    [CategoricalSniffer] and [categorical_to_int], followed by the
    properties of these functions.

    Conventions of the embedding.
    - Python objects that occur as items of categorical data are values
      of [pyval].  Floats are represented by the single object [np.nan];
      other numbers are integers and booleans.  A value stands for one
      object: a NaN that a float array hands out anew at each iteration
      is not told apart from the NaN handed out before, so a statement
      that compares an item with a level stored in an earlier
      iteration asks for items without NaN.
    - The data is a scalar, a text, a tuple, a list, an array or a
      pandas.Series, boxed or not, or a pandas.Categorical; all of them
      have a [len].  An iterable without [len] (a generator), on which
      [np.empty(len(data))] raises, and a box around a
      pandas.Categorical are not inputs of the embedding.
    - Exceptions are results: a function that may raise returns
      [result A = exn + A]; a method that mutates [self] and may raise
      returns the new state together with such a result, so the
      mutations done before a [raise] are kept, as in Python.
    - The [origin] token, which the source only forwards into every
      [PatsyError], is not tracked.
    - The flags [have_pandas] and [have_pandas_categorical] only guard
      [isinstance] tests; an input of the corresponding constructor can
      exist only when they are true, so the tests are plain matches. *)

From Stdlib Require Import ZArith List String Bool Lia Permutation.
Import ListNotations.
Local Open Scope Z_scope.
Local Open Scope list_scope.
Local Set Warnings "-register-all".

(* ------------------------------------------------------------------ *)
(** * Python values *)
(* ------------------------------------------------------------------ *)

Inductive pyval : Type :=
| PNone
| PBool (b : bool)
| PInt (n : Z)
| PStr (s : string)
| PNaN                          (* the float object np.nan *)
| PTuple (items : list pyval)
| PList (items : list pyval).   (* a list: iterable and unhashable *)

(** Comparison of two sequences item by item, as tuple and list
    comparison do. *)
Definition seq_eq {A : Type} (eq : A -> A -> bool) : list A -> list A -> bool :=
  fix go (l l' : list A) : bool :=
    match l, l' with
    | [], [] => true
    | x :: r, y :: r' => eq x y && go r r'
    | _, _ => false
    end.

(** [py_eq a b] is the comparison that dict lookup, set membership and
    tuple comparison perform on their items: [a is b or a == b].
    [True == 1] and [False == 0]; [np.nan] is one object, equal to
    itself by identity. *)
Fixpoint py_eq (a b : pyval) : bool :=
  match a, b with
  | PNone, PNone => true
  | PBool x, PBool y => Bool.eqb x y
  | PBool x, PInt n => Z.b2z x =? n
  | PInt n, PBool y => n =? Z.b2z y
  | PInt n, PInt m => n =? m
  | PStr s, PStr t => String.eqb s t
  | PNaN, PNaN => true
  | PTuple l, PTuple l' => seq_eq py_eq l l'
  | PList l, PList l' => seq_eq py_eq l l'
  | _, _ => false
  end.

(** [hash(v)] succeeds: lists are unhashable, a tuple is hashable when
    all its items are. *)
Fixpoint hashable (v : pyval) : bool :=
  match v with
  | PList _ => false
  | PTuple l => forallb hashable l
  | _ => true
  end.

(** [value is True or value is False]. *)
Definition is_bool (v : pyval) : bool :=
  match v with PBool _ => true | _ => false end.

(* ------------------------------------------------------------------ *)
(** * Exceptions *)
(* ------------------------------------------------------------------ *)

(** The four messages of [PatsyError] raised in this file.  An item
    [None] of the preview of [UnknownLevel] is the string "...". *)
Inductive patsy_error : Type :=
| InvalidShape                                   (* "categorical data cannot be >1-dimensional" *)
| HashError                                      (* "all items must be hashable", "encountered unhashable value" *)
| LevelMismatch (expected got : list pyval)      (* "mismatching levels: expected %r, got %r" *)
| UnknownLevel (value : pyval) (level_strs : list (option pyval)).
                                                 (* "observation with value %r does not match ..." *)

Inductive exn : Type :=
| TypeError
| KeyError (key : pyval)
| PatsyError (e : patsy_error).

Definition result (A : Type) : Type := (exn + A)%type.

Definition ret {A : Type} (a : A) : result A := inr a.
Definition raise {A : Type} (e : exn) : result A := inl e.
Definition bind {A B : Type} (c : result A) (k : A -> result B) : result B :=
  match c with
  | inl e => inl e
  | inr a => k a
  end.

Notation "x <- c ;; k" := (bind c (fun x => k))
  (at level 61, c at next level, right associativity).

(** [try: c  except TypeError: raise e]. *)
Definition except_TypeError {A : Type} (c : result A) (e : exn) : result A :=
  match c with
  | inl TypeError => inl e
  | other => other
  end.

(* ------------------------------------------------------------------ *)
(** * dict and set *)
(* ------------------------------------------------------------------ *)

Module Dict.

(** A dict with integer values, in insertion order.  Two keys are the
    same entry when [py_eq] holds of them. *)
Definition t : Type := list (pyval * Z).

Fixpoint get (d : t) (k : pyval) : option Z :=
  match d with
  | [] => None
  | (k0, v0) :: d' => if py_eq k0 k then Some v0 else get d' k
  end.

Fixpoint set (d : t) (k : pyval) (v : Z) : t :=
  match d with
  | [] => [(k, v)]
  | (k0, v0) :: d' =>
      if py_eq k0 k then (k0, v) :: d' else (k0, v0) :: set d' k v
  end.

(** [d[k]]. *)
Definition getitem (d : t) (k : pyval) : result Z :=
  if negb (hashable k) then raise TypeError
  else match get d k with
       | Some v => ret v
       | None => raise (KeyError k)
       end.

(** [d[k] = v]. *)
Definition setitem (d : t) (k : pyval) (v : Z) : result t :=
  if negb (hashable k) then raise TypeError else ret (set d k v).

(** [dict(pairs)]. *)
Fixpoint update (d : t) (pairs : list (pyval * Z)) : result t :=
  match pairs with
  | [] => ret d
  | (k, v) :: r => d' <- setitem d k v ;; update d' r
  end.

Definition of_pairs (pairs : list (pyval * Z)) : result t := update [] pairs.

End Dict.

Module PySet.

(** A set, in insertion order; the order is not observable. *)
Definition t : Type := list pyval.

Definition mem (v : pyval) (s : t) : bool := existsb (py_eq v) s.

Definition insert (s : t) (v : pyval) : t :=
  if mem v s then s else s ++ [v].

(** [s.add(v)]. *)
Definition add (s : t) (v : pyval) : result t :=
  if negb (hashable v) then raise TypeError else ret (insert s v).

(** [set([True, False])]. *)
Definition true_false : t := [PBool true; PBool false].

(** [s.update([True, False])]. *)
Definition update_true_false (s : t) : t :=
  insert (insert s (PBool true)) (PBool false).

(** [s == s']: same number of items, each item of [s] in [s']. *)
Definition eq (s s' : t) : bool :=
  (List.length s =? List.length s')%nat && forallb (fun v => mem v s') s.

End PySet.

(** [range(n)] and [zip(levels, range(len(levels)))]. *)
Definition range (n : nat) : list Z := map Z.of_nat (seq 0 n).

Definition zip {A B : Type} (l : list A) (l' : list B) : list (A * B) := combine l l'.

(** [tuple(a) == tuple(b)]. *)
Definition tuple_eq (a b : list pyval) : bool := seq_eq py_eq a b.

(* ------------------------------------------------------------------ *)
(** * Input objects *)
(* ------------------------------------------------------------------ *)

(** The items of an array of rank one, by dtype. *)
Inductive array_data : Type :=
| BoolData (bs : list bool)      (* np.issubdtype(dtype, np.bool_) *)
| OtherData (vs : list pyval).   (* any other dtype *)

(** An object with [ndim] and [dtype]: a numpy array of rank at least
    one, or a pandas.Series when [index] is given. *)
Record ndarray : Type := {
  ndim : positive;
  array_items : array_data;
  index : option (list pyval)
}.

(** Data that is neither a pandas.Categorical nor a _CategoricalBox. *)
Inductive plain : Type :=
| Val (v : pyval)       (* a Python scalar, string, tuple or list *)
| Array (a : ndarray).

(** Modelled from the spec: [patsy.util.iterable], which is not part of
    this file, is [iter(obj)] succeeding; a bare scalar is what it
    rejects. *)
Definition iterable (data : plain) : bool :=
  match data with
  | Val (PStr _) | Val (PTuple _) | Val (PList _) => true
  | Val _ => false
  | Array _ => true
  end.

(** [isinstance(data, (six.text_type, six.binary_type))]. *)
Definition is_text (data : plain) : bool :=
  match data with
  | Val (PStr _) => true
  | _ => false
  end.

(** [list(data)], the items that [for value in data] visits.  Each
    iteration gives the same values; see the remark on NaN above. *)
Definition iter (data : plain) : result (list pyval) :=
  match data with
  | Val (PTuple l) | Val (PList l) => ret l
  | Val (PStr s) => ret (map (fun c => PStr (String c EmptyString)) (list_ascii_of_string s))
  | Val _ => raise TypeError
  | Array a =>
      match array_items a with
      | BoolData bs => ret (map PBool bs)
      | OtherData vs => ret vs
      end
  end.

(** [hasattr(data, "dtype") and np.issubdtype(data.dtype, np.bool_)],
    with the items when it holds. *)
Definition bool_dtype (data : plain) : option (list bool) :=
  match data with
  | Array a =>
      match array_items a with
      | BoolData bs => Some bs
      | OtherData _ => None
      end
  | Val _ => None
  end.

(** The pandas.Series index of the input, if it is one. *)
Definition series_index (data : plain) : option (list pyval) :=
  match data with
  | Array a => index a
  | Val _ => None
  end.

Definition _categorical_shape_fix (data : plain) : result plain :=
  match data with
  | Array a =>
      if (1 <? ndim a)%positive then raise (PatsyError InvalidShape)
      else ret data
  | Val v =>
      if negb (iterable data) || is_text data then ret (Val (PList [v]))
      else ret data
  end.

(** The missing-value policy, [patsy.missing.NAAction], through its one
    method used here. *)
Record NAAction : Type := { is_categorical_NA : pyval -> bool }.

(** The result of [categorical_to_int]: a 1d array, or a pandas.Series
    when [codes_index] is given. *)
Record codes : Type := {
  values : list Z;
  codes_index : option (list pyval)
}.

(** The preview of the expected levels in the message of
    [UnknownLevel]. *)
Definition SHOW_LEVELS : nat := 4.

Definition level_strs (levels : list pyval) : list (option pyval) :=
  if (List.length levels <=? SHOW_LEVELS)%nat then map Some levels
  else map Some (firstn (SHOW_LEVELS / 2) levels)
       ++ [None]
       ++ map Some (skipn (List.length levels - SHOW_LEVELS / 2) levels).

(* ------------------------------------------------------------------ *)
(** * The functions of categorical.py *)
(* ------------------------------------------------------------------ *)

Section Categorical.

(** The contrast is an opaque payload. *)
Variable Contrast : Type.

(** [sorted(levels, key=SortAnythingKey)]: the ordering helper lives
    in patsy.util and is a parameter here. *)
Variable sorted_SortAnythingKey : list pyval -> list pyval.

(** ** _CategoricalBox and C *)

Record _CategoricalBox (D : Type) : Type := Build_CategoricalBox {
  box_data : D;
  box_contrast : option Contrast;
  box_levels : option (list pyval)
}.
Arguments Build_CategoricalBox {D}.
Arguments box_data {D}.
Arguments box_contrast {D}.
Arguments box_levels {D}.

(** [data] is either a [_CategoricalBox] (right) or any other object
    (left). *)
Definition C {D : Type} (data : D + _CategoricalBox D)
           (contrast : option Contrast) (levels : option (list pyval))
  : _CategoricalBox D :=
  match data with
  | inr box =>
      let contrast :=
        match contrast with None => box_contrast box | Some _ => contrast end in
      let levels :=
        match levels with None => box_levels box | Some _ => levels end in
      Build_CategoricalBox (box_data box) contrast levels
  | inl data => Build_CategoricalBox data contrast levels
  end.

(** ** The inputs of sniff and categorical_to_int *)

(** pandas.Categorical: its levels, its labels (-1 for missing) and
    the [contrast] attribute someone may have stuck onto it. *)
Record pandas_Categorical : Type := {
  cat_levels : list pyval;
  cat_labels : list Z;
  cat_contrast : option (option Contrast)
}.

(** The data of a box is plain: [C(pandas.Categorical)], which the
    source scans item by item after unboxing, is not an input. *)
Inductive pyobj : Type :=
| Categorical (c : pandas_Categorical)
| Box (b : _CategoricalBox plain)
| Plain (p : plain).

(** [data.contrast] when [hasattr(data, "contrast")]. *)
Definition getattr_contrast (data : pyobj) : option (option Contrast) :=
  match data with
  | Categorical c => cat_contrast c
  | Box b => Some (box_contrast b)
  | Plain _ => None
  end.

(** ** CategoricalSniffer *)

Record CategoricalSniffer : Type := {
  _NA_action : NAAction;
  _contrast : option Contrast;
  _levels : option (list pyval);
  _level_set : PySet.t
}.

Definition set_contrast (self : CategoricalSniffer) (c : option Contrast) :=
  {| _NA_action := _NA_action self; _contrast := c;
     _levels := _levels self; _level_set := _level_set self |}.

Definition set_levels (self : CategoricalSniffer) (l : list pyval) :=
  {| _NA_action := _NA_action self; _contrast := _contrast self;
     _levels := Some l; _level_set := _level_set self |}.

Definition set_level_set (self : CategoricalSniffer) (s : PySet.t) :=
  {| _NA_action := _NA_action self; _contrast := _contrast self;
     _levels := _levels self; _level_set := s |}.

(** [CategoricalSniffer.__init__]. *)
Definition CategoricalSniffer_init (NA_action : NAAction) : CategoricalSniffer :=
  {| _NA_action := NA_action; _contrast := None;
     _levels := None; _level_set := [] |}.

Definition levels_contrast (self : CategoricalSniffer)
  : CategoricalSniffer * (list pyval * option Contrast) :=
  match _levels self with
  | None =>
      let levels := sorted_SortAnythingKey (_level_set self) in
      let self := set_levels self levels in
      (self, (levels, _contrast self))
  | Some levels => (self, (levels, _contrast self))
  end.

(** The loop of [sniff]: the level set after the loop, or at the
    [raise]. *)
Fixpoint sniff_loop (NA_action : NAAction) (level_set : PySet.t)
         (data : list pyval) : PySet.t * result unit :=
  match data with
  | [] => (level_set, ret tt)
  | value :: data' =>
      if is_categorical_NA NA_action value then
        sniff_loop NA_action level_set data'
      else if is_bool value then
        sniff_loop NA_action (PySet.update_true_false level_set) data'
      else
        match except_TypeError (PySet.add level_set value)
                               (PatsyError HashError) with
        | inl e => (level_set, inl e)
        | inr level_set' => sniff_loop NA_action level_set' data'
        end
  end.

(** [sniff] from the fast path on, [data] being unboxed. *)
Definition sniff_plain (self : CategoricalSniffer) (data : plain)
  : CategoricalSniffer * result bool :=
  match bool_dtype data with
  | Some _ => (set_level_set self PySet.true_false, ret true)
  | None =>
      match (data <- _categorical_shape_fix data ;; iter data) with
      | inl e => (self, inl e)
      | inr items =>
          let (level_set, r) :=
            sniff_loop (_NA_action self) (_level_set self) items in
          (set_level_set self level_set,
           _ <- r ;; ret (PySet.eq level_set PySet.true_false))
      end
  end.

Definition sniff (self : CategoricalSniffer) (data : pyobj)
  : CategoricalSniffer * result bool :=
  let self :=
    match getattr_contrast data with
    | Some c => set_contrast self c
    | None => self
    end in
  match data with
  | Categorical c => (set_levels self (cat_levels c), ret true)
  | Box b =>
      match box_levels b with
      | Some levels => (set_levels self levels, ret true)
      | None => sniff_plain self (box_data b)
      end
  | Plain p => sniff_plain self p
  end.

(** ** categorical_to_int *)

(** The per-item loop of [categorical_to_int]. *)
Fixpoint encode_loop (levels : list pyval) (NA_action : NAAction)
         (level_to_int : Dict.t) (data : list pyval) : result (list Z) :=
  match data with
  | [] => ret []
  | value :: data' =>
      code <- (if is_categorical_NA NA_action value then ret (-1)
               else
                 match Dict.getitem level_to_int value with
                 | inl (KeyError _) =>
                     raise (PatsyError (UnknownLevel value (level_strs levels)))
                 | inl TypeError => raise (PatsyError HashError)
                 | other => other
                 end) ;;
      out <- encode_loop levels NA_action level_to_int data' ;;
      ret (code :: out)
  end.

(** The general path: the loop and the result, a pandas.Series when
    the input is one.  [np.empty(len(data))] allocates the result;
    [len] is defined on every input of the embedding. *)
Definition encode_general (data : plain) (levels : list pyval)
           (NA_action : NAAction) (level_to_int : Dict.t) : result codes :=
  items <- iter data ;;
  out <- encode_loop levels NA_action level_to_int items ;;
  ret {| values := out; codes_index := series_index data |}.

(** The test of the fast path on boolean arrays:
    [level_to_int[False] == 0 and level_to_int[True] == 1]. *)
Definition False_is_0_and_True_is_1 (level_to_int : Dict.t) : result bool :=
  i <- Dict.getitem level_to_int (PBool false) ;;
  if i =? 0 then
    j <- Dict.getitem level_to_int (PBool true) ;;
    ret (j =? 1)
  else ret false.

(** [categorical_to_int] from [_categorical_shape_fix] on, [data]
    being unboxed. *)
Definition categorical_to_int_plain (data : plain) (levels : list pyval)
           (NA_action : NAAction) : result codes :=
  data <- _categorical_shape_fix data ;;
  level_to_int <- except_TypeError
                    (Dict.of_pairs (zip levels (range (List.length levels))))
                    (PatsyError HashError) ;;
  match bool_dtype data with
  | Some bs =>
      fast <- False_is_0_and_True_is_1 level_to_int ;;
      if fast then
        ret {| values := map Z.b2z bs; codes_index := series_index data |}
      else encode_general data levels NA_action level_to_int
  | None => encode_general data levels NA_action level_to_int
  end.

Definition categorical_to_int (data : pyobj) (levels : list pyval)
           (NA_action : NAAction) : result codes :=
  match data with
  | Categorical c =>
      let data_levels_tuple := cat_levels c in
      if negb (tuple_eq data_levels_tuple levels) then
        raise (PatsyError (LevelMismatch levels data_levels_tuple))
      else ret {| values := cat_labels c; codes_index := None |}
  | Box b =>
      match box_levels b with
      | Some box_levels' =>
          if negb (tuple_eq box_levels' levels) then
            raise (PatsyError (LevelMismatch levels box_levels'))
          else categorical_to_int_plain (box_data b) levels NA_action
      | None => categorical_to_int_plain (box_data b) levels NA_action
      end
  | Plain p => categorical_to_int_plain p levels NA_action
  end.

End Categorical.

Arguments Build_CategoricalBox {Contrast D}.
Arguments box_data {Contrast D}.
Arguments box_contrast {Contrast D}.
Arguments box_levels {Contrast D}.
Arguments C {Contrast D}.
Arguments Build_pandas_Categorical {Contrast}.
Arguments cat_levels {Contrast}.
Arguments cat_labels {Contrast}.
Arguments cat_contrast {Contrast}.
Arguments Categorical {Contrast}.
Arguments Box {Contrast}.
Arguments Plain {Contrast}.
Arguments getattr_contrast {Contrast}.
Arguments Build_CategoricalSniffer {Contrast}.
Arguments _NA_action {Contrast}.
Arguments _contrast {Contrast}.
Arguments _levels {Contrast}.
Arguments _level_set {Contrast}.
Arguments set_contrast {Contrast}.
Arguments set_levels {Contrast}.
Arguments set_level_set {Contrast}.
Arguments CategoricalSniffer_init {Contrast}.
Arguments levels_contrast {Contrast}.
Arguments sniff_plain {Contrast}.
Arguments sniff {Contrast}.
Arguments categorical_to_int {Contrast}.

(* ------------------------------------------------------------------ *)
(** * Definitions used to state the properties *)
(* ------------------------------------------------------------------ *)

(** Induction on a value that reaches the items of a tuple or list. *)
Section pyval_induction.

Variable P : pyval -> Prop.
Hypothesis HNone : P PNone.
Hypothesis HBool : forall b, P (PBool b).
Hypothesis HInt : forall n, P (PInt n).
Hypothesis HStr : forall s, P (PStr s).
Hypothesis HNaN : P PNaN.
Hypothesis HTuple : forall l, Forall P l -> P (PTuple l).
Hypothesis HList : forall l, Forall P l -> P (PList l).

Fixpoint pyval_nested_ind (v : pyval) : P v :=
  let all :=
    fix all (l : list pyval) : Forall P l :=
      match l with
      | [] => Forall_nil P
      | x :: r => Forall_cons x (pyval_nested_ind x) (all r)
      end in
  match v with
  | PNone => HNone
  | PBool b => HBool b
  | PInt n => HInt n
  | PStr s => HStr s
  | PNaN => HNaN
  | PTuple l => HTuple l (all l)
  | PList l => HList l (all l)
  end.

End pyval_induction.

(** [value in levels]. *)
Definition occurs_in (value : pyval) (levels : list pyval) : bool :=
  existsb (py_eq value) levels.

(** [levels.index(value)]: the first position of [value]. *)
Fixpoint index_of (levels : list pyval) (value : pyval) : option Z :=
  match levels with
  | [] => None
  | level :: levels' =>
      if py_eq level value then Some 0
      else option_map Z.succ (index_of levels' value)
  end.

(** No value occurs twice in [levels]. *)
Fixpoint all_distinct (levels : list pyval) : bool :=
  match levels with
  | [] => true
  | level :: levels' => negb (occurs_in level levels') && all_distinct levels'
  end.

(** The value that the last pair with key [k] gives to [k]. *)
Fixpoint find_last (pairs : list (pyval * Z)) (k : pyval) : option Z :=
  match pairs with
  | [] => None
  | (k0, v0) :: r =>
      match find_last r k with
      | Some v => Some v
      | None => if py_eq k0 k then Some v0 else None
      end
  end.

(** The position of the last level equal to [value], counted from
    [start]. *)
Fixpoint last_index_from (start : nat) (levels : list pyval) (value : pyval)
  : option Z :=
  match levels with
  | [] => None
  | level :: levels' =>
      match last_index_from (S start) levels' value with
      | Some i => Some i
      | None => if py_eq level value then Some (Z.of_nat start) else None
      end
  end.

(** Modelled from the spec: a policy that treats [None] and [NaN] as
    missing, [NAAction(NA_types=["None", "NaN"])] of patsy.missing. *)
Definition NAAction_None_NaN : NAAction :=
  {| is_categorical_NA :=
       fun v => match v with PNone | PNaN => true | _ => false end |}.

(** A policy for which nothing is missing, [NAAction(NA_types=[])]. *)
Definition NAAction_nothing : NAAction :=
  {| is_categorical_NA := fun _ => false |}.

(** The code that the specification gives to one item: -1 when it is
    missing, otherwise its position in [levels]. *)
Definition code_spec (levels : list pyval) (NA_action : NAAction)
           (value : pyval) (code : Z) : Prop :=
  if is_categorical_NA NA_action value then code = -1
  else index_of levels value = Some code.

(** An item on which the loop does not raise. *)
Definition encodable (levels : list pyval) (NA_action : NAAction)
           (value : pyval) : bool :=
  is_categorical_NA NA_action value
  || (hashable value && occurs_in value levels).

(** The round trip of one item: its code is a position of [levels]
    and the level there equals the item. *)
Definition round_trip (levels : list pyval) (value : pyval) (code : Z) : Prop :=
  0 <= code < Z.of_nat (List.length levels) /\
  py_eq (nth (Z.to_nat code) levels PNone) value = true.

(** A numpy array of rank one with [dtype=bool]. *)
Definition bool_array (bs : list bool) : plain :=
  Array {| ndim := 1; array_items := BoolData bs; index := None |}.

(** [level_to_int] for the levels [(False, True)]. *)
Definition level_to_int_False_True : Dict.t :=
  [(PBool false, 0); (PBool true, 1)].

(** [tuple(a) != tuple(b)]: the lengths differ, or the values at some
    position do. *)
Definition levels_differ (a b : list pyval) : Prop :=
  List.length a <> List.length b \/
  exists i, (i < List.length a)%nat /\ py_eq (nth i a PNone) (nth i b PNone) = false.

(** The value of an argument that defaults to [None], given what it
    inherits. *)
Definition or_inherit {A : Type} (supplied inherited : option A) : option A :=
  match supplied with
  | None => inherited
  | Some _ => supplied
  end.

(** Modelled from the spec: a stable ordering in the manner of
    [SortAnythingKey] of patsy.util, which is not part of this file:
    numbers first and by value, then the other values by kind, strings
    in their natural order, ties in first-seen order (tuples among
    themselves too, which the helper would compare).  It serves only
    to run the sniffer on concrete inputs of numbers and strings; the
    theorems hold for every ordering. *)
Definition kind_rank (v : pyval) : nat :=
  match v with
  | PBool _ | PInt _ => 0
  | PNaN => 1
  | PNone => 2
  | PStr _ => 3
  | PTuple _ => 4
  | PList _ => 5
  end.

Definition number_of (v : pyval) : option Z :=
  match v with
  | PBool b => Some (Z.b2z b)
  | PInt n => Some n
  | _ => None
  end.

Definition sort_le (a b : pyval) : bool :=
  match number_of a, number_of b, a, b with
  | Some x, Some y, _, _ => x <=? y
  | _, _, PStr s, PStr t => String.leb s t
  | _, _, _, _ => (kind_rank a <=? kind_rank b)%nat
  end.

Fixpoint sort_insert (v : pyval) (sorted : list pyval) : list pyval :=
  match sorted with
  | [] => [v]
  | x :: r => if sort_le x v then x :: sort_insert v r else v :: sorted
  end.

Definition sorted_example (levels : list pyval) : list pyval :=
  fold_left (fun sorted v => sort_insert v sorted) levels [].

(** What sniff sees of a chunk. *)
Definition is_pandas_Categorical {Contrast : Type} (data : pyobj Contrast) : bool :=
  match data with
  | Categorical _ => true
  | _ => false
  end.

Definition is_box_with_levels {Contrast : Type} (data : pyobj Contrast) : bool :=
  match data with
  | Box b => match box_levels b with Some _ => true | None => false end
  | _ => false
  end.

(** The data itself, out of its box if it has one, has a boolean
    dtype. *)
Definition is_bool_storage {Contrast : Type} (data : pyobj Contrast) : bool :=
  match data with
  | Categorical _ => false
  | Box b => match bool_dtype (box_data b) with Some _ => true | None => false end
  | Plain p => match bool_dtype p with Some _ => true | None => false end
  end.

(** Any array of rank greater than one. *)
Definition array_of_rank_above_1 (n : positive) (items : array_data)
           (idx : option (list pyval)) : plain :=
  Array {| ndim := Pos.succ n; array_items := items; index := idx |}.

(** A bare scalar: not iterable, or a single text value. *)
Definition bare_scalar (v : pyval) : bool :=
  negb (iterable (Val v)) || is_text (Val v).

(** A policy for which [True] is missing. *)
Definition NAAction_True : NAAction :=
  {| is_categorical_NA :=
       fun v => match v with PBool true => true | _ => false end |}.

(** The sniffer after the chunks have been sniffed in turn, whatever
    each call returned or raised. *)
Fixpoint sniff_chunks {Contrast : Type} (self : CategoricalSniffer Contrast)
         (chunks : list (pyobj Contrast)) : CategoricalSniffer Contrast :=
  match chunks with
  | [] => self
  | chunk :: chunks' => sniff_chunks (fst (sniff self chunk)) chunks'
  end.

(** The chunk brings levels of its own. *)
Definition has_own_levels {Contrast : Type} (data : pyobj Contrast) : bool :=
  is_pandas_Categorical data || is_box_with_levels data.

(** The chunk takes the fast path of sniff. *)
Definition takes_fast_path {Contrast : Type} (data : pyobj Contrast) : bool :=
  is_bool_storage data && negb (is_box_with_levels data).

(** Every value of the set is hashable and no two are equal. *)
Definition level_set_ok (s : PySet.t) : bool :=
  forallb hashable s && all_distinct s.

(** What the item [item] of a scanned chunk makes of the value [v]: a
    member of the level set, when [item] is not missing and is [v], or
    is a boolean and [v] is [True] or [False]. *)
Definition contributes (NA_action : NAAction) (v item : pyval) : bool :=
  negb (is_categorical_NA NA_action item)
  && (if is_bool item
      then py_eq v (PBool true) || py_eq v (PBool false)
      else py_eq v item).

(** An item over which the scan of sniff does not raise. *)
Definition scannable (NA_action : NAAction) (item : pyval) : bool :=
  is_categorical_NA NA_action item || hashable item.

(** The code of one item on the general path: -1 when it is missing,
    otherwise a position of the item in [levels]. *)
Definition general_code (levels : list pyval) (NA_action : NAAction)
           (value : pyval) (code : Z) : Prop :=
  if is_categorical_NA NA_action value then code = -1
  else round_trip levels value code.

(** [code] is the last position of [value] in [levels]. *)
Definition last_position (levels : list pyval) (value : pyval) (code : Z) : Prop :=
  round_trip levels value code /\
  forall i : nat, (Z.to_nat code < i)%nat -> (i < List.length levels)%nat ->
                  py_eq (nth i levels PNone) value = false.

(** Inputs of the concrete runs: the list [["a", None, "b"]], the
    levels [("a", "b", "a")], the chunks [[10, 30]] and [[20]]. *)
Definition example_list : plain := Val (PList [PStr "a"; PNone; PStr "b"]).

Definition example_levels : list pyval := [PStr "a"; PStr "b"; PStr "a"].

Definition example_chunks : list plain :=
  [Val (PList [PInt 10; PInt 30]); Val (PList [PInt 20])].

(** [v] equals [True] or [False]: a boolean, or the integer 1 or 0. *)
Definition equals_a_boolean (v : pyval) : bool :=
  py_eq v (PBool true) || py_eq v (PBool false).

(** The set is exactly [{False, True}]: it holds both booleans and
    nothing that is not a boolean. *)
Definition only_True_and_False (s : PySet.t) : bool :=
  forallb is_bool s && PySet.mem (PBool true) s && PySet.mem (PBool false) s.

(** No NaN occurs in the value, so [v == v] holds in Python whichever
    objects carry the value. *)
Fixpoint nan_free (v : pyval) : bool :=
  match v with
  | PNaN => false
  | PTuple l | PList l => forallb nan_free l
  | _ => true
  end.

(* ------------------------------------------------------------------ *)
(** * Equality of Python values is an equivalence *)
(* ------------------------------------------------------------------ *)

Section seq_eq_facts.

Context {A : Type} (eq : A -> A -> bool).

Lemma seq_eq_refl (l : list A) :
  Forall (fun x => eq x x = true) l -> seq_eq eq l l = true.
Proof.
  induction 1 as [|x r Hx _ IH]; simpl; [reflexivity|].
  now rewrite Hx, IH.
Qed.

Lemma seq_eq_sym (l : list A) :
  Forall (fun x => forall y, eq x y = eq y x) l ->
  forall l', seq_eq eq l l' = seq_eq eq l' l.
Proof.
  induction 1 as [|x r Hx _ IH]; intros [|y r']; simpl; try reflexivity.
  now rewrite Hx, IH.
Qed.

Lemma seq_eq_trans (l : list A) :
  Forall (fun x => forall y z, eq x y = true -> eq y z = true -> eq x z = true) l ->
  forall l' l'', seq_eq eq l l' = true -> seq_eq eq l' l'' = true ->
                 seq_eq eq l l'' = true.
Proof.
  induction 1 as [|x r Hx _ IH]; intros [|y r'] [|z r'']; simpl;
    try discriminate; try reflexivity.
  intros H1 H2.
  apply andb_true_iff in H1 as [H1 H1'].
  apply andb_true_iff in H2 as [H2 H2'].
  apply andb_true_iff; split; [eapply Hx | eapply IH]; eassumption.
Qed.

Lemma seq_eq_length (l l' : list A) :
  seq_eq eq l l' = true -> List.length l = List.length l'.
Proof.
  revert l'; induction l as [|x r IH]; intros [|y r']; simpl;
    try discriminate; try reflexivity.
  intros H. apply andb_true_iff in H as [_ H]. f_equal. now apply IH.
Qed.

(** Two sequences are equal when they have the same length and the
    same items at the same positions. *)
Lemma seq_eq_nth (d : A) (l l' : list A) :
  seq_eq eq l l' = true <->
  List.length l = List.length l' /\
  forall i, (i < List.length l)%nat -> eq (nth i l d) (nth i l' d) = true.
Proof.
  revert l'; induction l as [|x r IH]; intros [|y r']; simpl.
  - split; [intros _; split; [reflexivity | intros i Hi; inversion Hi] | reflexivity].
  - split; [discriminate | intros [H _]; discriminate].
  - split; [discriminate | intros [H _]; discriminate].
  - rewrite andb_true_iff, IH. split.
    + intros [Hxy [Hlen Hnth]]. split; [now f_equal|].
      intros [|i] Hi; [assumption | apply Hnth; lia].
    + intros [Hlen Hnth]. split; [apply (Hnth 0%nat); lia|].
      split; [now injection Hlen|].
      intros i Hi. apply (Hnth (S i)). lia.
Qed.

End seq_eq_facts.

Lemma py_eq_refl (a : pyval) : py_eq a a = true.
Proof.
  induction a using pyval_nested_ind; simpl;
    auto using Bool.eqb_reflx, Z.eqb_refl, String.eqb_refl, seq_eq_refl.
Qed.

Lemma py_eq_sym (a b : pyval) : py_eq a b = py_eq b a.
Proof.
  revert b; induction a using pyval_nested_ind; intros []; simpl;
    try reflexivity;
    auto using Z.eqb_sym, String.eqb_sym, seq_eq_sym.
  now destruct b, b0.
Qed.

Lemma py_eq_trans (a b c : pyval) :
  py_eq a b = true -> py_eq b c = true -> py_eq a c = true.
Proof.
  revert b c; induction a using pyval_nested_ind; intros [] []; simpl;
    try discriminate; try reflexivity;
    rewrite ?Bool.eqb_true_iff, ?Z.eqb_eq, ?String.eqb_eq;
    try congruence;
    try (intros; subst; repeat match goal with x : bool |- _ => destruct x end;
         simpl in *; congruence);
    eauto using seq_eq_trans.
Qed.

(** Equal values are found by the same keys. *)
Lemma py_eq_congr_l (a b c : pyval) :
  py_eq a b = true -> py_eq a c = py_eq b c.
Proof.
  intros Hab. destruct (py_eq b c) eqn:Hbc.
  - eapply py_eq_trans; eassumption.
  - destruct (py_eq a c) eqn:Hac; [|reflexivity].
    rewrite <- Hbc. symmetry. eapply py_eq_trans; [|eassumption].
    now rewrite py_eq_sym.
Qed.

(* ------------------------------------------------------------------ *)
(** * The lookup table level_to_int *)
(* ------------------------------------------------------------------ *)

Module DictFacts.

Lemma get_set (d : Dict.t) (k : pyval) (i : Z) (v : pyval) :
  Dict.get (Dict.set d k i) v = if py_eq k v then Some i else Dict.get d v.
Proof.
  induction d as [|[k0 v0] d IH]; simpl; [reflexivity|].
  destruct (py_eq k0 k) eqn:Hk; simpl.
  - rewrite (py_eq_congr_l k0 k v Hk). now destruct (py_eq k v).
  - rewrite IH. destruct (py_eq k0 v) eqn:H0; [|reflexivity].
    destruct (py_eq k v) eqn:Hv; [|reflexivity].
    rewrite py_eq_sym in Hv.
    now rewrite (py_eq_trans k0 v k H0 Hv) in Hk.
Qed.

Lemma update_hashable (pairs : list (pyval * Z)) :
  forall d, forallb hashable (map fst pairs) = true ->
  exists d', Dict.update d pairs = inr d' /\
             forall v, Dict.get d' v =
                       match find_last pairs v with
                       | Some i => Some i
                       | None => Dict.get d v
                       end.
Proof.
  induction pairs as [|[k i] r IH]; simpl; intros d H.
  - now exists d.
  - apply andb_true_iff in H as [Hk Hr].
    unfold Dict.setitem. rewrite Hk. simpl.
    destruct (IH (Dict.set d k i) Hr) as [d' [Hd' Hget]].
    exists d'. split; [assumption|].
    intros v. rewrite Hget, get_set.
    now destruct (find_last r v), (py_eq k v).
Qed.

Lemma update_unhashable (pairs : list (pyval * Z)) :
  forall d, forallb hashable (map fst pairs) = false ->
  Dict.update d pairs = inl TypeError.
Proof.
  induction pairs as [|[k i] r IH]; simpl; intros d H; [discriminate|].
  unfold Dict.setitem.
  destruct (hashable k); simpl in *; [now apply IH | reflexivity].
Qed.

Lemma map_fst_zip_range (levels : list pyval) (start : nat) :
  map fst (zip levels (map Z.of_nat (seq start (List.length levels)))) = levels.
Proof.
  revert start; induction levels as [|x r IH]; intros start; simpl;
    [reflexivity | now rewrite IH].
Qed.

Lemma find_last_zip (levels : list pyval) (v : pyval) :
  forall start,
  find_last (zip levels (map Z.of_nat (seq start (List.length levels)))) v
  = last_index_from start levels v.
Proof.
  induction levels as [|x r IH]; intros start; simpl; [reflexivity|].
  now rewrite IH.
Qed.

(** What [dict(zip(levels, range(len(levels))))] holds. *)
Lemma level_to_int_hashable (levels : list pyval) :
  forallb hashable levels = true ->
  exists m, Dict.of_pairs (zip levels (range (List.length levels))) = inr m /\
            forall v, Dict.get m v = last_index_from 0 levels v.
Proof.
  intros H. unfold Dict.of_pairs, range.
  destruct (update_hashable
              (zip levels (map Z.of_nat (seq 0 (List.length levels)))) [])
    as [m [Hm Hget]].
  - now rewrite map_fst_zip_range.
  - exists m. split; [assumption|].
    intros v. rewrite Hget, find_last_zip.
    now destruct (last_index_from 0 levels v).
Qed.

Lemma level_to_int_unhashable (levels : list pyval) :
  forallb hashable levels = false ->
  Dict.of_pairs (zip levels (range (List.length levels))) = inl TypeError.
Proof.
  intros H. apply update_unhashable. unfold range.
  now rewrite map_fst_zip_range.
Qed.

Lemma level_to_int_inv (levels : list pyval) (m : Dict.t) :
  Dict.of_pairs (zip levels (range (List.length levels))) = inr m ->
  forallb hashable levels = true /\
  forall v, Dict.get m v = last_index_from 0 levels v.
Proof.
  intros Hm. destruct (forallb hashable levels) eqn:H.
  - split; [reflexivity|].
    destruct (level_to_int_hashable levels H) as [m' [Hm' Hget]].
    congruence.
  - rewrite (level_to_int_unhashable levels H) in Hm. discriminate.
Qed.

End DictFacts.

Section last_index_facts.

Lemma occurs_in_congr (a b : pyval) (levels : list pyval) :
  py_eq a b = true -> occurs_in a levels = occurs_in b levels.
Proof.
  intros Hab. induction levels as [|x r IH]; simpl; [reflexivity|].
  now rewrite IH, (py_eq_congr_l a b x Hab).
Qed.

Lemma last_index_from_sound (levels : list pyval) (v : pyval) :
  forall start i,
  last_index_from start levels v = Some i ->
  Z.of_nat start <= i < Z.of_nat (start + List.length levels) /\
  py_eq (nth (Z.to_nat i - start) levels PNone) v = true.
Proof.
  induction levels as [|x r IH]; simpl; intros start i H; [discriminate|].
  destruct (last_index_from (S start) r v) as [j|] eqn:Hj.
  - injection H as <-. destruct (IH _ _ Hj) as [Hb Hnth].
    split; [lia|].
    replace (Z.to_nat j - start)%nat with (S (Z.to_nat j - S start)) by lia.
    exact Hnth.
  - destruct (py_eq x v) eqn:Hx; [|discriminate].
    injection H as <-. split; [lia|].
    now replace (Z.to_nat (Z.of_nat start) - start)%nat with 0%nat by lia.
Qed.

Lemma last_index_from_none (levels : list pyval) (v : pyval) :
  forall start,
  last_index_from start levels v = None <-> occurs_in v levels = false.
Proof.
  induction levels as [|x r IH]; simpl; intros start; [tauto|].
  rewrite orb_false_iff, <- (IH (S start)), (py_eq_sym v x).
  destruct (last_index_from (S start) r v), (py_eq x v);
    split; try intros [? ?]; try discriminate; auto.
Qed.

Lemma last_index_from_distinct (levels : list pyval) (v : pyval) :
  all_distinct levels = true ->
  forall start,
  last_index_from start levels v
  = option_map (Z.add (Z.of_nat start)) (index_of levels v).
Proof.
  induction levels as [|x r IH]; simpl; intros Hd start; [reflexivity|].
  apply andb_true_iff in Hd as [Hx Hd].
  apply negb_true_iff in Hx.
  rewrite (IH Hd).
  destruct (py_eq x v) eqn:Hxv.
  - assert (Hv : index_of r v = None).
    { destruct (index_of r v) eqn:Hi; [|reflexivity].
      assert (Ho : occurs_in v r = true).
      { destruct (occurs_in v r) eqn:Ho; [reflexivity|].
        apply (last_index_from_none r v 0) in Ho.
        rewrite (IH Hd) in Ho. rewrite ?Hi in Ho. discriminate. }
      rewrite (occurs_in_congr x v r Hxv) in Hx. congruence. }
    rewrite Hv. cbn [option_map]. f_equal. lia.
  - destruct (index_of r v); cbn [option_map]; [f_equal; lia | reflexivity].
Qed.

End last_index_facts.

(* ------------------------------------------------------------------ *)
(** * The per-item loop of categorical_to_int *)
(* ------------------------------------------------------------------ *)

Section encode_loop_facts.

Variables (levels : list pyval) (NA_action : NAAction) (m : Dict.t).
Hypothesis Hm : forall v, Dict.get m v = last_index_from 0 levels v.

Lemma encode_loop_ok (items : list pyval) :
  forallb (encodable levels NA_action) items = true ->
  exists out,
    encode_loop levels NA_action m items = inr out /\
    Forall2 (fun v c => if is_categorical_NA NA_action v then c = -1
                        else last_index_from 0 levels v = Some c)
            items out.
Proof.
  induction items as [|v r IH]; simpl; intros H.
  - exists []. split; [reflexivity | constructor].
  - apply andb_true_iff in H as [Hv Hr].
    destruct (IH Hr) as [out [Hout Hall]].
    unfold encodable in Hv.
    destruct (is_categorical_NA NA_action v) eqn:HNA; simpl in *.
    + rewrite Hout. simpl. exists (-1 :: out). split; [reflexivity|].
      constructor; [now rewrite HNA | assumption].
    + apply andb_true_iff in Hv as [Hh Ho].
      unfold Dict.getitem. rewrite Hh, Hm. simpl.
      destruct (last_index_from 0 levels v) as [c|] eqn:Hc.
      * simpl. rewrite Hout. simpl. exists (c :: out).
        split; [reflexivity|].
        constructor; [now rewrite HNA | assumption].
      * apply last_index_from_none in Hc. congruence.
Qed.

(** The first item that is not missing and is unhashable, or is not
    a level, decides the error. *)
Lemma encode_loop_first_error (before after : list pyval) (v : pyval) :
  forallb (encodable levels NA_action) before = true ->
  encodable levels NA_action v = false ->
  encode_loop levels NA_action m (before ++ v :: after)
  = inl (PatsyError (if hashable v then UnknownLevel v (level_strs levels)
                     else HashError)).
Proof.
  intros Hb Hv. induction before as [|x r IH]; simpl.
  - unfold encodable in Hv. apply orb_false_iff in Hv as [HNA Hv].
    rewrite HNA. unfold Dict.getitem.
    destruct (hashable v); simpl in *; [|reflexivity].
    rewrite Hm.
    destruct (last_index_from 0 levels v) eqn:Hc; [|reflexivity].
    assert (Hn : last_index_from 0 levels v <> None) by congruence.
    rewrite last_index_from_none in Hn. congruence.
  - simpl in Hb. apply andb_true_iff in Hb as [Hx Hr].
    rewrite (IH Hr).
    unfold encodable in Hx.
    destruct (is_categorical_NA NA_action x); simpl in *; [reflexivity|].
    apply andb_true_iff in Hx as [Hh Ho].
    unfold Dict.getitem. rewrite Hh, Hm. simpl.
    destruct (last_index_from 0 levels x) eqn:Hc; [reflexivity|].
    apply last_index_from_none in Hc. congruence.
Qed.

End encode_loop_facts.

(** The test of the fast path, by what [levels] holds. *)
Lemma False_is_0_and_True_is_1_spec (levels : list pyval) (m : Dict.t) :
  (forall v, Dict.get m v = last_index_from 0 levels v) ->
  False_is_0_and_True_is_1 m =
  match last_index_from 0 levels (PBool false) with
  | None => inl (KeyError (PBool false))
  | Some i =>
      if i =? 0 then
        match last_index_from 0 levels (PBool true) with
        | None => inl (KeyError (PBool true))
        | Some j => inr (j =? 1)
        end
      else inr false
  end.
Proof.
  intros Hm. unfold False_is_0_and_True_is_1, Dict.getitem. simpl.
  rewrite !Hm.
  destruct (last_index_from 0 levels (PBool false)) as [i|]; simpl; [|reflexivity].
  destruct (i =? 0); [|reflexivity].
  now destruct (last_index_from 0 levels (PBool true)).
Qed.

Lemma last_index_round_trip (levels : list pyval) (v : pyval) (c : Z) :
  last_index_from 0 levels v = Some c -> round_trip levels v c.
Proof.
  intros H. apply last_index_from_sound in H as [Hb Hnth].
  split; [lia|]. now rewrite Nat.sub_0_r in Hnth.
Qed.

Lemma Forall2_impl_In {A B : Type} (P Q : A -> B -> Prop)
      (l : list A) (l' : list B) :
  Forall2 P l l' ->
  (forall a b, In a l -> P a b -> Q a b) ->
  Forall2 Q l l'.
Proof.
  induction 1 as [|a b r r' Hab _ IH]; intros HPQ; constructor.
  - apply HPQ; [now left | assumption].
  - apply IH. intros x y Hx. apply HPQ. now right.
Qed.

(** Away from boolean arrays whose levels lack [False] or [True], the
    round trip holds: [categorical_to_int] returns, and each code
    leads back to its item. *)
Lemma round_trip_plain (data data' : plain) (levels items : list pyval)
      (NA_action : NAAction) :
  _categorical_shape_fix data = inr data' ->
  iter data' = inr items ->
  forallb hashable levels = true ->
  forallb (fun v => negb (is_categorical_NA NA_action v)
                    && hashable v && occurs_in v levels) items = true ->
  (bool_dtype data' <> None ->
   occurs_in (PBool false) levels = true /\ occurs_in (PBool true) levels = true) ->
  exists out,
    categorical_to_int_plain data levels NA_action
    = inr {| values := out; codes_index := series_index data' |} /\
    Forall2 (round_trip levels) items out.
Proof.
  intros Hfix Hiter Hlv Hitems Hbool.
  destruct (DictFacts.level_to_int_hashable levels Hlv) as [m [Hm Hget]].
  assert (Hgen : exists out,
             encode_general data' levels NA_action m
             = inr {| values := out; codes_index := series_index data' |} /\
             Forall2 (round_trip levels) items out).
  { unfold encode_general. rewrite Hiter. simpl.
    destruct (encode_loop_ok levels NA_action m Hget items) as [out [Hout Hall]].
    - rewrite forallb_forall in *. intros v Hv. specialize (Hitems v Hv).
      unfold encodable.
      apply andb_true_iff in Hitems as [Hitems Ho].
      apply andb_true_iff in Hitems as [_ Hh].
      rewrite Hh, Ho. apply orb_true_r.
    - rewrite Hout. simpl. exists out. split; [reflexivity|].
      clear Hout. rewrite forallb_forall in Hitems.
      apply (Forall2_impl_In _ _ _ _ Hall). intros v c Hv Hvc.
      specialize (Hitems v Hv).
      apply andb_true_iff in Hitems as [Hitems _].
      apply andb_true_iff in Hitems as [HNA _].
      apply negb_true_iff in HNA.
      rewrite HNA in Hvc. now apply last_index_round_trip. }
  unfold categorical_to_int_plain. rewrite Hfix. simpl. rewrite Hm. simpl.
  destruct (bool_dtype data') as [bs|] eqn:Hbd; [|exact Hgen].
  rewrite (False_is_0_and_True_is_1_spec levels m Hget).
  destruct Hbool as [HF HT]; [discriminate|].
  destruct (last_index_from 0 levels (PBool false)) as [i|] eqn:Hi;
    [| apply last_index_from_none in Hi; congruence].
  destruct (i =? 0) eqn:Hi0; [|exact Hgen].
  destruct (last_index_from 0 levels (PBool true)) as [j|] eqn:Hj;
    [| apply last_index_from_none in Hj; congruence].
  simpl. destruct (j =? 1) eqn:Hj1; [|exact Hgen].
  apply Z.eqb_eq in Hi0, Hj1. subst i j.
  exists (map Z.b2z bs). split; [reflexivity|].
  assert (Hit : items = map PBool bs).
  { destruct data' as [v|a]; simpl in Hbd; [discriminate|].
    simpl in Hiter. destruct (array_items a); [|discriminate].
    injection Hbd as ->. now injection Hiter. }
  subst items. clear - Hi Hj.
  induction bs as [|b bs IH]; simpl; constructor; [|assumption].
  destruct b; simpl; now apply last_index_round_trip.
Qed.

(** On the general path an unhashable level is rejected while the
    lookup table is built, whatever the items are. *)
Lemma unhashable_level_HashError (data data' : plain) (levels : list pyval)
      (NA_action : NAAction) :
  _categorical_shape_fix data = inr data' ->
  forallb hashable levels = false ->
  categorical_to_int_plain data levels NA_action = inl (PatsyError HashError).
Proof.
  intros Hfix Hlv. unfold categorical_to_int_plain. rewrite Hfix. simpl.
  now rewrite (DictFacts.level_to_int_unhashable levels Hlv).
Qed.

(** On the general path, the first item that is not missing and is
    unhashable or not a level raises [HashError] or [UnknownLevel]. *)
Lemma general_path_first_error (data data' : plain)
      (levels before after : list pyval) (v : pyval) (NA_action : NAAction) :
  _categorical_shape_fix data = inr data' ->
  bool_dtype data' = None ->
  iter data' = inr (before ++ v :: after) ->
  forallb hashable levels = true ->
  forallb (encodable levels NA_action) before = true ->
  encodable levels NA_action v = false ->
  categorical_to_int_plain data levels NA_action
  = inl (PatsyError (if hashable v then UnknownLevel v (level_strs levels)
                     else HashError)).
Proof.
  intros Hfix Hbd Hiter Hlv Hb Hv.
  destruct (DictFacts.level_to_int_hashable levels Hlv) as [m [Hm Hget]].
  unfold categorical_to_int_plain. rewrite Hfix. simpl. rewrite Hm. simpl.
  rewrite Hbd. unfold encode_general. rewrite Hiter. simpl.
  now rewrite (encode_loop_first_error levels NA_action m Hget before after v Hb Hv).
Qed.

(* ------------------------------------------------------------------ *)
(** * Properties of categorical_to_int *)
(* ------------------------------------------------------------------ *)

(** The extent of the [KeyError]: every boolean array of rank one whose
    levels are hashable and lack [False] raises it, before any item is
    looked at. *)
Lemma bool_array_without_False_KeyError
      (bs : list bool) (idx : option (list pyval))
      (levels : list pyval) (NA_action : NAAction) :
  forallb hashable levels = true ->
  occurs_in (PBool false) levels = false ->
  categorical_to_int_plain
    (Array {| ndim := 1; array_items := BoolData bs; index := idx |})
    levels NA_action
  = inl (KeyError (PBool false)).
Proof.
  intros Hlv HF.
  destruct (DictFacts.level_to_int_hashable levels Hlv) as [m [Hm Hget]].
  unfold categorical_to_int_plain. simpl. rewrite Hm. simpl.
  rewrite (False_is_0_and_True_is_1_spec levels m Hget).
  apply (last_index_from_none levels (PBool false) 0) in HF.
  now rewrite HF.
Qed.

(** C1: the round trip [levels[encode(data, levels, policy)[i]] == data[i]]
    for data whose items are all non-missing, hashable and among the
    levels.  On the boolean array [np.asarray([True])] with levels
    [(True,)] these conditions hold, yet [categorical_to_int] raises
    the [KeyError] of [level_to_int[False]] instead of returning [[0]].
    [round_trip_plain] proves the round trip on every other input and
    [bool_array_without_False_KeyError] gives the extent of the error. *)
Theorem C1_round_trip_bool_array_KeyError :
  let data := bool_array [true] in
  let levels := [PBool true] in
  let NA_action := NAAction_nothing in
  iter data = inr [PBool true] /\
  forallb hashable levels = true /\
  forallb (fun v => negb (is_categorical_NA NA_action v)
                    && hashable v && occurs_in v levels) [PBool true] = true /\
  categorical_to_int (Contrast := unit) (Plain data) levels NA_action
  = inl (KeyError (PBool false)).
Proof. repeat split. Qed.

(** C2: on the general path each item that the policy classifies as
    missing gets the code -1 and every other item gets its zero-based
    position in the levels; [["b", None, NaN, "a"]] against
    [("a", "b")] with [None] and [NaN] missing gives [[1, -1, -1, 0]]. *)
Theorem C2_general_path_codes
        (levels : list pyval) (NA_action : NAAction) (level_to_int : Dict.t)
        (data : plain) (items : list pyval) :
  Dict.of_pairs (zip levels (range (List.length levels))) = inr level_to_int ->
  all_distinct levels = true ->
  iter data = inr items ->
  forallb (encodable levels NA_action) items = true ->
  (exists out,
      encode_general data levels NA_action level_to_int
      = inr {| values := out; codes_index := series_index data |} /\
      Forall2 (code_spec levels NA_action) items out) /\
  categorical_to_int (Contrast := unit)
    (Plain (Val (PList [PStr "b"; PNone; PNaN; PStr "a"])))
    [PStr "a"; PStr "b"] NAAction_None_NaN
  = inr {| values := [1; -1; -1; 0]; codes_index := None |}.
Proof.
  intros Hm Hd Hiter Hitems. split; [|reflexivity].
  apply DictFacts.level_to_int_inv in Hm as [_ Hget].
  destruct (encode_loop_ok levels NA_action level_to_int Hget items Hitems)
    as [out [Hout Hall]].
  exists out. split.
  - unfold encode_general. rewrite Hiter. simpl. now rewrite Hout.
  - apply (Forall2_impl_In _ _ _ _ Hall). intros v c _ Hvc.
    unfold code_spec. destruct (is_categorical_NA NA_action v); [assumption|].
    rewrite (last_index_from_distinct levels v Hd 0) in Hvc.
    destruct (index_of levels v); simpl in *; [|discriminate].
    injection Hvc as <-. f_equal.
Qed.

(** C3: an item that is not missing and not among the levels raises
    [UnknownLevel], also when the data is a boolean array; an
    unhashable item or level raises [HashError].  On the boolean array
    [np.asarray([True, False])] with levels [("a", "b")] the test of
    the fast path raises the [KeyError] of [level_to_int[False]], which
    is no [PatsyError], under every policy.  [general_path_first_error]
    and [unhashable_level_HashError] prove the claim on the general
    path. *)
Theorem C3_bool_array_unknown_level_KeyError (NA_action : NAAction) :
  categorical_to_int (Contrast := unit)
    (Plain (bool_array [true; false])) [PStr "a"; PStr "b"] NA_action
  = inl (KeyError (PBool false)).
Proof. reflexivity. Qed.

Lemma encode_loop_bools (levels : list pyval) (NA_action : NAAction)
      (bs : list bool) :
  is_categorical_NA NA_action (PBool false) = false ->
  is_categorical_NA NA_action (PBool true) = false ->
  encode_loop levels NA_action level_to_int_False_True (map PBool bs)
  = inr (map Z.b2z bs).
Proof.
  intros HF HT. induction bs as [|b bs IH]; simpl; [reflexivity|].
  rewrite IH. now destruct b; rewrite ?HF, ?HT.
Qed.

(** C4, as amended: for a boolean array, levels exactly
    [(False, True)] and a policy for which neither [True] nor [False]
    is missing, the fast path is taken and its result, the numeric
    cast, is the result of the general per-item path on the same
    input. *)
Theorem C4_fast_path_equals_general_path
        (bs : list bool) (idx : option (list pyval)) (NA_action : NAAction) :
  is_categorical_NA NA_action (PBool false) = false ->
  is_categorical_NA NA_action (PBool true) = false ->
  let data := Array {| ndim := 1; array_items := BoolData bs; index := idx |} in
  let levels := [PBool false; PBool true] in
  Dict.of_pairs (zip levels (range (List.length levels)))
  = inr level_to_int_False_True /\
  False_is_0_and_True_is_1 level_to_int_False_True = inr true /\
  categorical_to_int (Contrast := unit) (Plain data) levels NA_action
  = inr {| values := map Z.b2z bs; codes_index := idx |} /\
  encode_general data levels NA_action level_to_int_False_True
  = categorical_to_int (Contrast := unit) (Plain data) levels NA_action.
Proof.
  intros HF HT data levels. repeat split.
  unfold encode_general. simpl.
  now rewrite (encode_loop_bools levels NA_action bs HF HT).
Qed.

Lemma tuple_eq_false_iff (a b : list pyval) :
  tuple_eq a b = false <-> levels_differ a b.
Proof.
  unfold tuple_eq, levels_differ. split.
  - revert b; induction a as [|x r IH]; intros [|y r']; simpl;
      try discriminate; try (intros _; left; discriminate).
    intros H. apply andb_false_iff in H as [H|H].
    + right. exists 0%nat. split; [lia | assumption].
    + destruct (IH r' H) as [Hlen | [i [Hi Hne]]].
      * left. congruence.
      * right. exists (S i). split; [lia | assumption].
  - intros H. destruct (seq_eq py_eq a b) eqn:Heq; [|reflexivity].
    apply (seq_eq_nth py_eq PNone) in Heq as [Hlen Hnth].
    destruct H as [H | [i [Hi Hne]]]; [contradiction|].
    rewrite (Hnth i Hi) in Hne. discriminate.
Qed.

(** C5: a pandas.Categorical, or a box with explicit levels, whose own
    levels differ from the expected ones in a value or in the order
    raises [LevelMismatch], so [("a", "b")] against [("b", "a")] does;
    when the levels of a pandas.Categorical match, its labels are
    returned as they are. *)
Theorem C5_level_mismatch
        (Contrast : Type) (levels : list pyval) (NA_action : NAAction) :
  (forall c : pandas_Categorical Contrast,
      categorical_to_int (Categorical c) levels NA_action
      = if tuple_eq (cat_levels c) levels
        then inr {| values := cat_labels c; codes_index := None |}
        else inl (PatsyError (LevelMismatch levels (cat_levels c)))) /\
  (forall (d : plain) (c : option Contrast) (own : list pyval),
      categorical_to_int (Box (Build_CategoricalBox d c (Some own))) levels NA_action
      = if tuple_eq own levels
        then categorical_to_int (Contrast := Contrast) (Plain d) levels NA_action
        else inl (PatsyError (LevelMismatch levels own))) /\
  (forall own, tuple_eq own levels = false <-> levels_differ own levels) /\
  (forall (labels : list Z) (cc : option (option Contrast)),
      categorical_to_int
        (Categorical (Build_pandas_Categorical [PStr "a"; PStr "b"] labels cc))
        [PStr "b"; PStr "a"] NA_action
      = inl (PatsyError (LevelMismatch [PStr "b"; PStr "a"] [PStr "a"; PStr "b"]))) /\
  (forall (d : plain) (c : option Contrast),
      categorical_to_int
        (Box (Build_CategoricalBox d c (Some [PStr "a"; PStr "b"])))
        [PStr "b"; PStr "a"] NA_action
      = inl (PatsyError (LevelMismatch [PStr "b"; PStr "a"] [PStr "a"; PStr "b"]))).
Proof.
  repeat split.
  - intros c. simpl. now destruct (tuple_eq (cat_levels c) levels).
  - intros d c own. simpl. now destruct (tuple_eq own levels).
  - apply tuple_eq_false_iff.
  - apply tuple_eq_false_iff.
Qed.

(** C10: for a boolean array and levels in which [False] has index 0
    and [True] has index 1, the result of [categorical_to_int] is the
    numeric cast of the items under every policy: the policy is not
    consulted, every code is 0 or 1, none is -1. *)
Theorem C10_bool_array_ignores_policy
        (levels : list pyval) (level_to_int : Dict.t)
        (bs : list bool) (idx : option (list pyval)) :
  Dict.of_pairs (zip levels (range (List.length levels))) = inr level_to_int ->
  Dict.get level_to_int (PBool false) = Some 0 ->
  Dict.get level_to_int (PBool true) = Some 1 ->
  let data := Array {| ndim := 1; array_items := BoolData bs; index := idx |} in
  (forall NA_action,
      categorical_to_int (Contrast := unit) (Plain data) levels NA_action
      = inr {| values := map Z.b2z bs; codes_index := idx |}) /\
  (forall NA_action NA_action',
      categorical_to_int (Contrast := unit) (Plain data) levels NA_action
      = categorical_to_int (Contrast := unit) (Plain data) levels NA_action') /\
  Forall (fun code => code = 0 \/ code = 1) (map Z.b2z bs) /\
  ~ In (-1) (map Z.b2z bs).
Proof.
  intros Hm HF HT data.
  assert (H : forall NA_action,
             categorical_to_int (Contrast := unit) (Plain data) levels NA_action
             = inr {| values := map Z.b2z bs; codes_index := idx |}).
  { intros NA_action. simpl. unfold categorical_to_int_plain. simpl.
    rewrite Hm. simpl.
    unfold False_is_0_and_True_is_1, Dict.getitem. simpl.
    now rewrite HF, HT. }
  repeat split.
  - exact H.
  - intros NA_action NA_action'. now rewrite !H.
  - apply Forall_forall. intros c Hc. apply in_map_iff in Hc as [b [<- _]].
    destruct b; auto.
  - intros Hc. apply in_map_iff in Hc as [b [Hb _]]. now destruct b.
Qed.

(* ------------------------------------------------------------------ *)
(** * Properties of C *)
(* ------------------------------------------------------------------ *)

(** C9: [C] unwraps a box and, for the contrast and for the levels
    independently, keeps the argument that is not [None] and otherwise
    inherits from the box; so boxing a box again with no argument gives
    an equal box, and one argument leaves the other field as it was. *)
Theorem C9_box_unwraps_and_inherits
        (Contrast D : Type) (box : _CategoricalBox Contrast D) :
  (forall contrast levels,
      C (inr box) contrast levels
      = Build_CategoricalBox (box_data box)
                             (or_inherit contrast (box_contrast box))
                             (or_inherit levels (box_levels box))) /\
  C (inr box) None None = box /\
  C (inr (C (inr box) None None)) None None = C (inr box) None None /\
  (forall contrast,
      box_levels (C (inr box) (Some contrast) None) = box_levels box /\
      box_contrast (C (inr box) (Some contrast) None) = Some contrast) /\
  (forall levels,
      box_contrast (C (inr box) None (Some levels)) = box_contrast box /\
      box_levels (C (inr box) None (Some levels)) = Some levels) /\
  (forall (data : D) (contrast : option Contrast) levels,
      C (inl data) contrast levels = Build_CategoricalBox data contrast levels).
Proof.
  destruct box as [d c l]. repeat split.
Qed.

(* ------------------------------------------------------------------ *)
(** * Properties of the sniffer *)
(* ------------------------------------------------------------------ *)

Lemma sniff_loop_error (NA_action : NAAction) (items : list pyval) :
  forall level_set e,
  snd (sniff_loop NA_action level_set items) = inl e -> e = PatsyError HashError.
Proof.
  induction items as [|v r IH]; simpl; intros s e H; [discriminate|].
  destruct (is_categorical_NA NA_action v); [now apply (IH _ _ H)|].
  destruct (is_bool v); [now apply (IH _ _ H)|].
  unfold PySet.add in H. destruct (hashable v); simpl in H.
  - now apply (IH _ _ H).
  - now injection H as <-.
Qed.

(** After the shape fix the data can be iterated, and the only error
    of the shape fix is [InvalidShape]. *)
Lemma shape_fix_then_iter (data : plain) :
  (exists items, (data' <- _categorical_shape_fix data ;; iter data') = inr items) \/
  (data' <- _categorical_shape_fix data ;; iter data') = inl (PatsyError InvalidShape).
Proof.
  destruct data as [v|a]; simpl.
  - left. destruct v; simpl; eauto.
  - destruct (1 <? ndim a)%positive; simpl; [now right|].
    left. destruct (array_items a); eauto.
Qed.

Lemma sniff_plain_cases {Contrast : Type}
      (self : CategoricalSniffer Contrast) (data : plain) :
  let self' := fst (sniff_plain self data) in
  let r := snd (sniff_plain self data) in
  _levels self' = _levels self /\
  _contrast self' = _contrast self /\
  match bool_dtype data with
  | Some _ => r = inr true /\ _level_set self' = PySet.true_false
  | None =>
      r = inr (PySet.eq (_level_set self') PySet.true_false) \/
      r = inl (PatsyError InvalidShape) \/
      r = inl (PatsyError HashError)
  end.
Proof.
  unfold sniff_plain.
  destruct (bool_dtype data); simpl; [auto|].
  destruct (shape_fix_then_iter data) as [[items ->] | ->]; simpl; [|auto].
  pose proof (sniff_loop_error (_NA_action self) items (_level_set self)) as He.
  destruct (sniff_loop (_NA_action self) (_level_set self) items) as [s [e|[]]];
    simpl in *; auto.
  rewrite (He e eq_refl). auto.
Qed.

(** C6: sniff returns true exactly when the chunk is a
    pandas.Categorical, a box with explicit levels or of boolean
    storage, or when after the scan the level set is exactly
    [{False, True}], and false otherwise.  On the list [[0, 1]] a new
    sniffer takes none of the three early returns, scans, ends with the
    level set [{0, 1}], which holds no boolean, and returns true:
    [self._level_set == set([True, False])] takes 0 for [False] and 1
    for [True], against the comment above that line, "if everything
    we've seen is boolean".  On [["a", "b"]] the same sniffer returns
    false and on [[True]] true, as claimed.
    [scan_answer_without_boolean_like_items] proves the claim for the
    scans in which no item equals a boolean without being one. *)
Theorem C6_sniff_0_and_1_returns_true :
  let self := CategoricalSniffer_init (Contrast := unit) NAAction_nothing in
  let chunk := Plain (Val (PList [PInt 0; PInt 1])) in
  is_pandas_Categorical chunk || is_box_with_levels chunk || is_bool_storage chunk
  = false /\
  sniff self chunk = (set_level_set self [PInt 0; PInt 1], inr true) /\
  only_True_and_False [PInt 0; PInt 1] = false /\
  existsb is_bool [PInt 0; PInt 1] = false /\
  sniff self (Plain (Val (PList [PStr "a"; PStr "b"])))
  = (set_level_set self [PStr "a"; PStr "b"], inr false) /\
  sniff self (Plain (Val (PList [PBool true])))
  = (set_level_set self PySet.true_false, inr true).
Proof. repeat split. Qed.



(** C8, as amended: [categorical_to_int] raises [InvalidShape] on any
    input of rank greater than one, unless the input is a box whose
    explicit levels mismatch, which raises [LevelMismatch] first; sniff
    raises [InvalidShape] on an input of rank greater than one that
    reaches the shape fix, that is, one that is not of boolean storage
    and is not a box with explicit levels, and returns true on a
    boolean array of any rank; both turn a bare scalar, a single text
    value included, into a sequence of length one before processing,
    and the bare scalar ["a"] against [("a", "b")] gives [[0]]. *)
Theorem C8_shape_fix
        (Contrast : Type) (self : CategoricalSniffer Contrast)
        (levels : list pyval) (NA_action : NAAction) :
  (forall n items idx (c : option Contrast),
      let data := array_of_rank_above_1 n items idx in
      categorical_to_int (Contrast := Contrast) (Plain data) levels NA_action
      = inl (PatsyError InvalidShape) /\
      categorical_to_int (Box (Build_CategoricalBox data c None)) levels NA_action
      = inl (PatsyError InvalidShape) /\
      forall own,
        categorical_to_int (Box (Build_CategoricalBox data c (Some own))) levels NA_action
        = inl (PatsyError (if tuple_eq own levels then InvalidShape
                           else LevelMismatch levels own))) /\
  (forall n vs idx (c : option Contrast),
      let data := array_of_rank_above_1 n (OtherData vs) idx in
      snd (sniff self (Plain data)) = inl (PatsyError InvalidShape) /\
      snd (sniff self (Box (Build_CategoricalBox data c None)))
      = inl (PatsyError InvalidShape)) /\
  (forall n bs idx,
      snd (sniff self (Plain (array_of_rank_above_1 n (BoolData bs) idx)))
      = inr true) /\
  (forall v, bare_scalar v = true ->
             _categorical_shape_fix (Val v) = inr (Val (PList [v])) /\
             sniff self (Plain (Val v)) = sniff self (Plain (Val (PList [v]))) /\
             categorical_to_int (Contrast := Contrast) (Plain (Val v)) levels NA_action
             = categorical_to_int (Contrast := Contrast)
                 (Plain (Val (PList [v]))) levels NA_action) /\
  categorical_to_int (Contrast := Contrast)
    (Plain (Val (PStr "a"))) [PStr "a"; PStr "b"] NAAction_None_NaN
  = inr {| values := [0]; codes_index := None |}.
Proof.
  assert (Hrank : forall n items idx,
             _categorical_shape_fix (array_of_rank_above_1 n items idx)
             = inl (PatsyError InvalidShape)).
  { intros n items idx. unfold _categorical_shape_fix. simpl.
    replace (1 <? Pos.succ n)%positive with true; [reflexivity|].
    symmetry. apply Pos.ltb_lt. lia. }
  assert (Hplain : forall n items idx,
             categorical_to_int_plain (array_of_rank_above_1 n items idx)
                                      levels NA_action
             = inl (PatsyError InvalidShape)).
  { intros n items idx. unfold categorical_to_int_plain. now rewrite Hrank. }
  assert (Hsniff : forall (s : CategoricalSniffer Contrast) n vs idx,
             snd (sniff_plain s (array_of_rank_above_1 n (OtherData vs) idx))
             = inl (PatsyError InvalidShape)).
  { intros s n vs idx. unfold sniff_plain.
    cbn [bool_dtype array_of_rank_above_1 array_items].
    now rewrite Hrank. }
  split; [|split; [|split; [|split]]].
  - intros n items idx c data. split; [apply Hplain|]. split; [apply Hplain|].
    intros own. simpl.
    destruct (tuple_eq own levels); simpl; [apply Hplain | reflexivity].
  - intros n vs idx c data. split; apply Hsniff.
  - reflexivity.
  - intros v Hv. destruct v; try discriminate; repeat split.
  - reflexivity.
Qed.

(* ------------------------------------------------------------------ *)
(** * Concrete runs *)
(* ------------------------------------------------------------------ *)

(** C4 as stated fails: with a policy for which [True] is missing, the
    fast path on [np.asarray([True, False])] and levels
    [(False, True)] returns [[1, 0]], the general path [[-1, 0]]. *)
Lemma C4_counterexample :
  let data := bool_array [true; false] in
  let levels := [PBool false; PBool true] in
  categorical_to_int (Contrast := unit) (Plain data) levels NAAction_True
  = inr {| values := [1; 0]; codes_index := None |} /\
  encode_general data levels NAAction_True level_to_int_False_True
  = inr {| values := [-1; 0]; codes_index := None |} /\
  categorical_to_int (Contrast := unit) (Plain data) levels NAAction_True
  <> encode_general data levels NAAction_True level_to_int_False_True.
Proof. repeat split. discriminate. Qed.


(** C8 as stated fails: sniff returns true on the boolean array
    [np.asarray([[True, False]])] of rank two. *)
Lemma C8_counterexample :
  let data := Array {| ndim := 2; array_items := BoolData [true; false];
                       index := None |} in
  let r := snd (sniff (CategoricalSniffer_init (Contrast := unit) NAAction_nothing)
                      (Plain data)) in
  r = inr true /\ r <> inl (PatsyError InvalidShape).
Proof. split; [reflexivity | discriminate]. Qed.

Lemma C2_general_path_codes_witness :
  let levels := [PStr "a"; PStr "b"] in
  let level_to_int := [(PStr "a", 0); (PStr "b", 1)] in
  let items := [PStr "b"; PNone; PNaN; PStr "a"] in
  let data := Val (PList items) in
  (Dict.of_pairs (zip levels (range (List.length levels))) = inr level_to_int /\
   all_distinct levels = true /\
   iter data = inr items /\
   forallb (encodable levels NAAction_None_NaN) items = true) /\
  exists out,
    encode_general data levels NAAction_None_NaN level_to_int
    = inr {| values := out; codes_index := series_index data |} /\
    Forall2 (code_spec levels NAAction_None_NaN) items out.
Proof.
  split; [repeat split|].
  apply (C2_general_path_codes
           [PStr "a"; PStr "b"] NAAction_None_NaN
           [(PStr "a", 0); (PStr "b", 1)]
           (Val (PList [PStr "b"; PNone; PNaN; PStr "a"]))
           [PStr "b"; PNone; PNaN; PStr "a"]); reflexivity.
Defined.

Lemma C4_fast_path_equals_general_path_witness :
  let data := bool_array [true; false; true] in
  let levels := [PBool false; PBool true] in
  (is_categorical_NA NAAction_None_NaN (PBool false) = false /\
   is_categorical_NA NAAction_None_NaN (PBool true) = false) /\
  categorical_to_int (Contrast := unit) (Plain data) levels NAAction_None_NaN
  = inr {| values := [1; 0; 1]; codes_index := None |} /\
  encode_general data levels NAAction_None_NaN level_to_int_False_True
  = categorical_to_int (Contrast := unit) (Plain data) levels NAAction_None_NaN.
Proof.
  split; [split; reflexivity|].
  apply (C4_fast_path_equals_general_path
           [true; false; true] None NAAction_None_NaN); reflexivity.
Defined.

Lemma C10_bool_array_ignores_policy_witness :
  let levels := [PBool false; PBool true; PStr "a"] in
  let level_to_int := [(PBool false, 0); (PBool true, 1); (PStr "a", 2)] in
  let data := bool_array [true; false] in
  (Dict.of_pairs (zip levels (range (List.length levels))) = inr level_to_int /\
   Dict.get level_to_int (PBool false) = Some 0 /\
   Dict.get level_to_int (PBool true) = Some 1) /\
  forall NA_action,
    categorical_to_int (Contrast := unit) (Plain data) levels NA_action
    = inr {| values := [1; 0]; codes_index := None |}.
Proof.
  split; [repeat split|].
  apply (C10_bool_array_ignores_policy
           [PBool false; PBool true; PStr "a"]
           [(PBool false, 0); (PBool true, 1); (PStr "a", 2)]
           [true; false] None); reflexivity.
Defined.

(* ------------------------------------------------------------------ *)
(** * Further properties of categorical_to_int *)
(* ------------------------------------------------------------------ *)

Lemma forallb_false_split {A : Type} (f : A -> bool) (l : list A) :
  forallb f l = false ->
  exists before x after,
    l = before ++ x :: after /\ forallb f before = true /\ f x = false.
Proof.
  induction l as [|a r IH]; simpl; [discriminate|].
  destruct (f a) eqn:Ha; simpl.
  - intros H. destruct (IH H) as [before [x [after [-> [Hb Hx]]]]].
    exists (a :: before), x, after. simpl. now rewrite Ha, Hb.
  - intros _. now exists [], a, r.
Qed.

Lemma shape_fix_iter (data data' : plain) :
  _categorical_shape_fix data = inr data' ->
  exists items, iter data' = inr items.
Proof.
  destruct data as [v|a]; simpl; unfold ret, raise.
  - destruct v; simpl; intros H; injection H as <-; simpl; eauto.
  - destruct (1 <? ndim a)%positive; [discriminate|].
    intros H. injection H as <-. simpl. destruct (array_items a); eauto.
Qed.

Lemma shape_fix_error (data : plain) (e : exn) :
  _categorical_shape_fix data = inl e -> e = PatsyError InvalidShape.
Proof.
  destruct data as [v|a]; simpl; unfold ret, raise.
  - destruct v; discriminate.
  - destruct (1 <? ndim a)%positive; [|discriminate].
    intros H. now injection H as <-.
Qed.

Lemma shape_fix_bool_dtype (data data' : plain) :
  _categorical_shape_fix data = inr data' ->
  bool_dtype data' = bool_dtype data.
Proof.
  destruct data as [v|a]; simpl; unfold ret, raise.
  - destruct v; intros H; now injection H as <-.
  - destruct (1 <? ndim a)%positive; [discriminate|].
    intros H. now injection H as <-.
Qed.

Lemma bool_dtype_iter (data : plain) (bs : list bool) :
  bool_dtype data = Some bs -> iter data = inr (map PBool bs).
Proof.
  destruct data as [v|a]; simpl; [discriminate|].
  destruct (array_items a); [|discriminate].
  intros H. now injection H as ->.
Qed.

Lemma occurs_in_false_nth (levels : list pyval) (v : pyval) (i : nat) :
  occurs_in v levels = false ->
  (i < List.length levels)%nat ->
  py_eq (nth i levels PNone) v = false.
Proof.
  revert i; induction levels as [|x r IH]; simpl; intros i H Hi; [lia|].
  apply orb_false_iff in H as [Hx Hr].
  destruct i as [|i]; [now rewrite py_eq_sym | apply IH; [assumption | lia]].
Qed.

Lemma last_index_from_is_last (levels : list pyval) (v : pyval) :
  forall start c,
  last_index_from start levels v = Some c ->
  forall i, (Z.to_nat c - start < i)%nat -> (i < List.length levels)%nat ->
            py_eq (nth i levels PNone) v = false.
Proof.
  induction levels as [|x r IH]; simpl; intros start c H i Hlo Hhi; [lia|].
  destruct (last_index_from (S start) r v) as [j|] eqn:Hj.
  - injection H as <-.
    destruct (last_index_from_sound r v _ _ Hj) as [Hb _].
    destruct i as [|i]; [lia|].
    apply (IH _ _ Hj); lia.
  - destruct (py_eq x v); [|discriminate].
    injection H as <-.
    destruct i as [|i]; [lia|].
    apply occurs_in_false_nth; [|lia].
    now apply (last_index_from_none r v (S start)).
Qed.

Lemma last_index_last_position (levels : list pyval) (v : pyval) (c : Z) :
  last_index_from 0 levels v = Some c -> last_position levels v c.
Proof.
  intros H. split; [now apply last_index_round_trip|].
  intros i Hlo Hhi. apply (last_index_from_is_last levels v 0 c H); lia.
Qed.

(** The general path returns when the levels are hashable and the loop
    meets no item it cannot encode; the codes are -1 and last
    positions. *)
Lemma general_path_ok (data data' : plain) (levels items : list pyval)
      (NA_action : NAAction) :
  _categorical_shape_fix data = inr data' ->
  bool_dtype data' = None ->
  iter data' = inr items ->
  forallb hashable levels = true ->
  forallb (encodable levels NA_action) items = true ->
  exists out,
    categorical_to_int_plain data levels NA_action
    = inr {| values := out; codes_index := series_index data' |} /\
    Forall2 (fun v c => if is_categorical_NA NA_action v then c = -1
                        else last_index_from 0 levels v = Some c)
            items out.
Proof.
  intros Hfix Hbd Hiter Hlv Hitems.
  destruct (DictFacts.level_to_int_hashable levels Hlv) as [m [Hm Hget]].
  destruct (encode_loop_ok levels NA_action m Hget items Hitems)
    as [out [Hout Hall]].
  exists out. split; [|assumption].
  unfold categorical_to_int_plain. rewrite Hfix. simpl. rewrite Hm. simpl.
  rewrite Hbd. unfold encode_general. rewrite Hiter. simpl. now rewrite Hout.
Qed.

Lemma general_path_returns_inv
      (data data' : plain) (levels items : list pyval) (NA_action : NAAction)
      (out : codes) :
  _categorical_shape_fix data = inr data' ->
  bool_dtype data' = None ->
  iter data' = inr items ->
  categorical_to_int_plain data levels NA_action = inr out ->
  forallb hashable levels = true /\
  forallb (encodable levels NA_action) items = true.
Proof.
  intros Hfix Hbd Hiter Hout.
  destruct (forallb hashable levels) eqn:Hlv.
  - split; [reflexivity|].
    destruct (forallb (encodable levels NA_action) items) eqn:Hitems;
      [reflexivity|].
    destruct (forallb_false_split _ _ Hitems)
      as [before [v [after [Heq [Hb Hv]]]]].
    subst items.
    rewrite (general_path_first_error data data' levels before after v
               NA_action Hfix Hbd Hiter Hlv Hb Hv) in Hout.
    discriminate.
  - rewrite (unhashable_level_HashError data data' levels NA_action Hfix Hlv)
      in Hout.
    discriminate.
Qed.

(** X1: on the general path [categorical_to_int] returns exactly when
    every level is hashable and every item is missing or is a hashable
    value among the levels. *)
Theorem X1_general_path_returns_iff
        (data data' : plain) (levels items : list pyval) (NA_action : NAAction) :
  _categorical_shape_fix data = inr data' ->
  bool_dtype data' = None ->
  iter data' = inr items ->
  ((exists out, categorical_to_int_plain data levels NA_action = inr out) <->
   forallb hashable levels = true /\
   forallb (encodable levels NA_action) items = true).
Proof.
  intros Hfix Hbd Hiter. split.
  - intros [out Hout].
    now apply (general_path_returns_inv data data' levels items NA_action out).
  - intros [Hlv Hitems].
    destruct (general_path_ok data data' levels items NA_action
                Hfix Hbd Hiter Hlv Hitems) as [out [Hout _]].
    eauto.
Qed.

(** X2: with levels that repeat a value, the code of an item on the
    general path is the last position of its value: the level at the
    code equals the item and no later level does. *)
Theorem X2_last_position_wins
        (data data' : plain) (levels items : list pyval) (NA_action : NAAction)
        (out : codes) :
  _categorical_shape_fix data = inr data' ->
  bool_dtype data' = None ->
  iter data' = inr items ->
  categorical_to_int_plain data levels NA_action = inr out ->
  Forall2 (fun v c => if is_categorical_NA NA_action v then c = -1
                      else last_position levels v c)
          items (values out).
Proof.
  intros Hfix Hbd Hiter Hout.
  destruct (general_path_returns_inv data data' levels items NA_action out
              Hfix Hbd Hiter Hout) as [Hlv Hitems].
  destruct (general_path_ok data data' levels items NA_action
              Hfix Hbd Hiter Hlv Hitems) as [out' [Hout' Hall]].
  rewrite Hout' in Hout. injection Hout as <-. simpl.
  apply (Forall2_impl_In _ _ _ _ Hall). intros v c _ Hvc.
  destruct (is_categorical_NA NA_action v); [assumption|].
  now apply last_index_last_position.
Qed.

Lemma encode_loop_length (levels : list pyval) (NA_action : NAAction)
      (m : Dict.t) (items : list pyval) :
  forall out, encode_loop levels NA_action m items = inr out ->
              List.length out = List.length items.
Proof.
  induction items as [|v r IH]; simpl; intros out H.
  - now injection H as <-.
  - destruct (if is_categorical_NA NA_action v then _ else _) as [e|c];
      simpl in H; [discriminate|].
    destruct (encode_loop levels NA_action m r) as [e|out'];
      simpl in H; [discriminate|].
    injection H as <-. simpl. f_equal. now apply IH.
Qed.

Lemma encode_loop_codes (levels : list pyval) (NA_action : NAAction)
      (m : Dict.t) (items : list pyval) :
  forall out, encode_loop levels NA_action m items = inr out ->
              Forall (fun c => c = -1 \/ exists v, Dict.get m v = Some c) out.
Proof.
  induction items as [|v r IH]; simpl; intros out H.
  - injection H as <-. constructor.
  - destruct (is_categorical_NA NA_action v).
    + simpl in H.
      destruct (encode_loop levels NA_action m r) as [e|out'];
        simpl in H; [discriminate|].
      injection H as <-. constructor; [now left | now apply IH].
    + unfold Dict.getitem in H.
      destruct (hashable v); simpl in H; [|discriminate].
      destruct (Dict.get m v) as [c|] eqn:Hc; simpl in H; [|discriminate].
      destruct (encode_loop levels NA_action m r) as [e|out'];
        simpl in H; [discriminate|].
      injection H as <-. constructor; [right; eauto | now apply IH].
Qed.



Lemma fast_test_true (m : Dict.t) :
  False_is_0_and_True_is_1 m = inr true ->
  Dict.get m (PBool false) = Some 0 /\ Dict.get m (PBool true) = Some 1.
Proof.
  unfold False_is_0_and_True_is_1, Dict.getitem. simpl.
  destruct (Dict.get m (PBool false)) as [i|]; simpl; [|discriminate].
  destruct (i =? 0) eqn:Hi; [|discriminate].
  destruct (Dict.get m (PBool true)) as [j|]; simpl; [|discriminate].
  intros H. injection H as H.
  apply Z.eqb_eq in Hi, H. now subst.
Qed.


(** How [categorical_to_int] returns on unboxed data: by the fast path
    or by the loop. *)
Lemma plain_returns_inv (data : plain) (levels : list pyval)
      (NA_action : NAAction) (out : codes) :
  categorical_to_int_plain data levels NA_action = inr out ->
  exists data' m items,
    _categorical_shape_fix data = inr data' /\
    Dict.of_pairs (zip levels (range (List.length levels))) = inr m /\
    iter data' = inr items /\
    codes_index out = series_index data' /\
    ((exists bs, bool_dtype data' = Some bs /\
                 False_is_0_and_True_is_1 m = inr true /\
                 values out = map Z.b2z bs) \/
     encode_loop levels NA_action m items = inr (values out)).
Proof.
  unfold categorical_to_int_plain. intros H.
  destruct (_categorical_shape_fix data) as [e|data'] eqn:Hfix;
    simpl in H; [discriminate|].
  destruct (Dict.of_pairs (zip levels (range (List.length levels))))
    as [e|m] eqn:Hm; simpl in H; [destruct e; discriminate|].
  destruct (shape_fix_iter data data' Hfix) as [items Hiter].
  exists data', m, items. repeat (split; [reflexivity || assumption|..]).
  assert (Hgen : encode_general data' levels NA_action m = inr out ->
                 codes_index out = series_index data' /\
                 encode_loop levels NA_action m items = inr (values out)).
  { unfold encode_general. rewrite Hiter. simpl.
    destruct (encode_loop levels NA_action m items) as [e|o]; simpl;
      [discriminate|].
    intros H'. now injection H' as <-. }
  destruct (bool_dtype data') as [bs|] eqn:Hbd.
  - destruct (False_is_0_and_True_is_1 m) as [e|[|]] eqn:Hfast;
      simpl in H; [discriminate| |].
    + injection H as <-. simpl. split; [reflexivity|]. left. now exists bs.
    + destruct (Hgen H) as [Hi Hl]. split; [assumption | now right].
  - destruct (Hgen H) as [Hi Hl]. split; [assumption | now right].
Qed.


Lemma series_index_shape_fix (data data' : plain) :
  _categorical_shape_fix data = inr data' ->
  series_index data' = series_index data.
Proof.
  destruct data as [v|a]; simpl; unfold ret, raise.
  - destruct v; intros H; now injection H as <-.
  - destruct (1 <? ndim a)%positive; [discriminate|].
    intros H. now injection H as <-.
Qed.

(** X3: when [categorical_to_int] returns on unboxed data, the result
    has one code for each item of the shape-fixed input, and it is a
    pandas.Series with the index of the input exactly when the input
    is one. *)
Theorem X3_one_code_per_item
        (data : plain) (levels : list pyval) (NA_action : NAAction) (out : codes) :
  categorical_to_int_plain data levels NA_action = inr out ->
  (exists data' items,
      _categorical_shape_fix data = inr data' /\
      iter data' = inr items /\
      List.length (values out) = List.length items) /\
  codes_index out = series_index data.
Proof.
  intros H.
  destruct (plain_returns_inv data levels NA_action out H)
    as [data' [m [items [Hfix [Hm [Hiter [Hidx Hvals]]]]]]].
  split; [|now rewrite Hidx, (series_index_shape_fix data data' Hfix)].
  exists data', items. repeat split; try assumption.
  destruct Hvals as [[bs [Hbd [_ Hv]]] | Hloop].
  - rewrite (bool_dtype_iter data' bs Hbd) in Hiter. injection Hiter as <-.
    now rewrite Hv, !length_map.
  - now apply encode_loop_length in Hloop.
Qed.

(** X4: when [categorical_to_int] returns on unboxed data, every code
    is -1 or a position of [levels]. *)
Theorem X4_codes_in_range
        (data : plain) (levels : list pyval) (NA_action : NAAction) (out : codes) :
  categorical_to_int_plain data levels NA_action = inr out ->
  Forall (fun c => c = -1 \/ 0 <= c < Z.of_nat (List.length levels)) (values out).
Proof.
  intros H.
  destruct (plain_returns_inv data levels NA_action out H)
    as [data' [m [items [Hfix [Hm [Hiter [Hidx Hvals]]]]]]].
  destruct (DictFacts.level_to_int_inv levels m Hm) as [_ Hget].
  assert (Hpos : forall v c, Dict.get m v = Some c ->
                             0 <= c < Z.of_nat (List.length levels)).
  { intros v c Hc. rewrite Hget in Hc.
    apply last_index_round_trip in Hc. apply Hc. }
  destruct Hvals as [[bs [Hbd [Hfast Hv]]] | Hloop].
  - destruct (fast_test_true m Hfast) as [HF HT].
    apply Hpos in HF, HT. rewrite Hv. apply Forall_forall.
    intros c Hc. apply in_map_iff in Hc as [b [<- _]].
    right. destruct b; simpl; lia.
  - apply encode_loop_codes in Hloop.
    apply (Forall_impl _ (P := fun c => c = -1 \/ exists v, Dict.get m v = Some c));
      [|assumption].
    intros c [Hc | [v Hc]]; [now left | right; now apply (Hpos v)].
Qed.


Lemma tuple_eq_refl (levels : list pyval) : tuple_eq levels levels = true.
Proof.
  apply seq_eq_refl, Forall_forall. intros v _. apply py_eq_refl.
Qed.

(** X6: for plain data, that is, data that is no pandas.Categorical:
    boxing it with the expected levels, or boxing a box of it again
    with the expected levels whatever levels that box declared, makes
    [categorical_to_int] encode the data and raise no [LevelMismatch];
    boxing a box again without levels keeps the levels it declared, so
    their mismatch is still raised. *)
Theorem X6_reboxing_with_expected_levels
        (Contrast : Type) (levels : list pyval) (NA_action : NAAction) :
  (forall (d : plain) (c : option Contrast),
      categorical_to_int (Box (C (inl d) c (Some levels))) levels NA_action
      = categorical_to_int (Contrast := Contrast) (Plain d) levels NA_action) /\
  (forall (b : _CategoricalBox Contrast plain) (c : option Contrast),
      categorical_to_int (Box (C (inr b) c (Some levels))) levels NA_action
      = categorical_to_int (Contrast := Contrast) (Plain (box_data b))
          levels NA_action) /\
  (forall (b : _CategoricalBox Contrast plain) (c : option Contrast)
          (own : list pyval),
      box_levels b = Some own ->
      tuple_eq own levels = false ->
      categorical_to_int (Box (C (inr b) c None)) levels NA_action
      = inl (PatsyError (LevelMismatch levels own))).
Proof.
  split; [|split].
  - intros d c. simpl. now rewrite tuple_eq_refl.
  - intros b c. simpl. now rewrite tuple_eq_refl.
  - intros [d c0 l] c own Hl Hne. simpl in *. subst l. simpl.
    now rewrite Hne.
Qed.

Lemma skipn_last_two (d : pyval) (l : list pyval) :
  (2 <= List.length l)%nat ->
  skipn (List.length l - 2) l
  = [nth (List.length l - 2) l d; nth (List.length l - 1) l d].
Proof.
  induction l as [|x r IH]; simpl; [lia|].
  destruct r as [|y [|z r']]; simpl in *; [lia | reflexivity |].
  intros _. rewrite Nat.sub_0_r in IH.
  replace (List.length r' - 0)%nat with (List.length r') by lia.
  rewrite IH by lia.
  destruct (List.length r') as [|n]; reflexivity.
Qed.

(** X7: the preview of the expected levels in the message of
    [UnknownLevel] shows every level when there are at most four, and
    otherwise the first two levels, an ellipsis and the last two. *)
Theorem X7_level_preview (levels : list pyval) :
  ((List.length levels <= 4)%nat -> level_strs levels = map Some levels) /\
  ((4 < List.length levels)%nat ->
   let n := List.length levels in
   level_strs levels
   = [Some (nth 0 levels PNone); Some (nth 1 levels PNone); None;
      Some (nth (n - 2) levels PNone); Some (nth (n - 1) levels PNone)]).
Proof.
  unfold level_strs, SHOW_LEVELS. split; intros H.
  - apply Nat.leb_le in H. now rewrite H.
  - cbv zeta. replace (List.length levels <=? 4)%nat with false
      by (symmetry; apply Nat.leb_gt; lia).
    change (4 / 2)%nat with 2%nat.
    rewrite (skipn_last_two PNone levels) by lia.
    destruct levels as [|a [|b r]]; simpl in H; try lia.
    reflexivity.
Qed.

(* ------------------------------------------------------------------ *)
(** * Further properties of the sniffer *)
(* ------------------------------------------------------------------ *)

Lemma mem_insert (s : PySet.t) (x v : pyval) :
  PySet.mem v (PySet.insert s x) = PySet.mem v s || py_eq v x.
Proof.
  unfold PySet.insert. destruct (PySet.mem x s) eqn:Hx.
  - destruct (py_eq v x) eqn:Hv; [|now rewrite orb_false_r].
    rewrite orb_true_r.
    pose proof (occurs_in_congr v x s Hv) as Hc.
    unfold PySet.mem, occurs_in in *. now rewrite Hc.
  - unfold PySet.mem. rewrite existsb_app. simpl. now rewrite orb_false_r.
Qed.

Lemma all_distinct_snoc (s : list pyval) (x : pyval) :
  all_distinct s = true -> occurs_in x s = false ->
  all_distinct (s ++ [x]) = true.
Proof.
  induction s as [|y r IH]; simpl; intros Hd Hx; [reflexivity|].
  apply andb_true_iff in Hd as [Hy Hd].
  apply orb_false_iff in Hx as [Hxy Hx].
  rewrite (IH Hd Hx), andb_true_r.
  unfold occurs_in in *. rewrite existsb_app. simpl.
  rewrite py_eq_sym, Hxy, orb_false_r. exact Hy.
Qed.

Lemma insert_ok (s : PySet.t) (x : pyval) :
  hashable x = true -> level_set_ok s = true ->
  level_set_ok (PySet.insert s x) = true.
Proof.
  unfold level_set_ok, PySet.insert. intros Hx Hs.
  destruct (PySet.mem x s) eqn:Hm; [assumption|].
  apply andb_true_iff in Hs as [Hh Hd].
  rewrite forallb_app, Hh. simpl. rewrite Hx. simpl.
  now apply all_distinct_snoc.
Qed.

Section sniff_loop_facts.

Variable NA_action : NAAction.

Lemma sniff_loop_members (items : list pyval) :
  forall s, snd (sniff_loop NA_action s items) = inr tt ->
  forall v, PySet.mem v (fst (sniff_loop NA_action s items))
            = PySet.mem v s || existsb (contributes NA_action v) items.
Proof.
  induction items as [|x r IH]; simpl; intros s H v.
  - now rewrite orb_false_r.
  - unfold contributes at 1.
    destruct (is_categorical_NA NA_action x); simpl; [now apply IH|].
    destruct (is_bool x).
    + rewrite (IH _ H). unfold PySet.update_true_false.
      now rewrite !mem_insert, <- !orb_assoc.
    + unfold PySet.add in *. destruct (hashable x); simpl in *; [|discriminate].
      rewrite (IH _ H). now rewrite mem_insert, orb_assoc.
Qed.

Lemma sniff_loop_monotone (items : list pyval) :
  forall s v, PySet.mem v s = true ->
              PySet.mem v (fst (sniff_loop NA_action s items)) = true.
Proof.
  induction items as [|x r IH]; simpl; intros s v H; [assumption|].
  destruct (is_categorical_NA NA_action x); [now apply IH|].
  destruct (is_bool x).
  - apply IH. unfold PySet.update_true_false. now rewrite !mem_insert, H.
  - unfold PySet.add. destruct (hashable x); simpl; [|assumption].
    apply IH. now rewrite mem_insert, H.
Qed.

Lemma sniff_loop_ok (items : list pyval) :
  forall s, level_set_ok s = true ->
            level_set_ok (fst (sniff_loop NA_action s items)) = true.
Proof.
  induction items as [|x r IH]; simpl; intros s H; [assumption|].
  destruct (is_categorical_NA NA_action x); [now apply IH|].
  destruct (is_bool x).
  - apply IH. unfold PySet.update_true_false. now repeat apply insert_ok.
  - unfold PySet.add. destruct (hashable x) eqn:Hx; simpl; [|assumption].
    apply IH. now apply insert_ok.
Qed.

Lemma sniff_loop_result (items : list pyval) :
  forall s, snd (sniff_loop NA_action s items)
            = if forallb (scannable NA_action) items then inr tt
              else inl (PatsyError HashError).
Proof.
  induction items as [|x r IH]; simpl; intros s; [reflexivity|].
  unfold scannable at 1.
  destruct (is_categorical_NA NA_action x); simpl; [now apply IH|].
  destruct (is_bool x) eqn:Hb.
  - destruct x; try discriminate. simpl. now apply IH.
  - unfold PySet.add. destruct (hashable x); simpl; [now apply IH | reflexivity].
Qed.

End sniff_loop_facts.

(** sniff on plain data that does not take the fast path and passes
    the shape fix, by the loop. *)
Lemma sniff_plain_scan {Contrast : Type} (self : CategoricalSniffer Contrast)
      (p p' : plain) (items : list pyval) :
  bool_dtype p = None ->
  _categorical_shape_fix p = inr p' ->
  iter p' = inr items ->
  let scan := sniff_loop (_NA_action self) (_level_set self) items in
  fst (sniff_plain self p) = set_level_set self (fst scan) /\
  snd (sniff_plain self p)
  = (_ <- snd scan ;; ret (PySet.eq (fst scan) PySet.true_false)).
Proof.
  intros Hbd Hfix Hiter. unfold sniff_plain. rewrite Hbd, Hfix. simpl.
  rewrite Hiter.
  now destruct (sniff_loop (_NA_action self) (_level_set self) items).
Qed.

Lemma sniff_keeps_NA_action {Contrast : Type}
      (self : CategoricalSniffer Contrast) (data : pyobj Contrast) :
  _NA_action (fst (sniff self data)) = _NA_action self.
Proof.
  assert (Hplain : forall (s : CategoricalSniffer Contrast) p,
             _NA_action (fst (sniff_plain s p)) = _NA_action s).
  { intros s p. unfold sniff_plain.
    destruct (bool_dtype p); [reflexivity|].
    destruct (data' <- _categorical_shape_fix p ;; iter data'); [reflexivity|].
    now destruct (sniff_loop (_NA_action s) (_level_set s) l). }
  unfold sniff.
  destruct data as [c | b | p].
  - now destruct (getattr_contrast (Categorical c)).
  - simpl. destruct (box_levels b); [reflexivity|]. now rewrite Hplain.
  - simpl. apply Hplain.
Qed.

Lemma sniff_keeps_levels {Contrast : Type}
      (self : CategoricalSniffer Contrast) (data : pyobj Contrast) :
  has_own_levels data = false ->
  _levels (fst (sniff self data)) = _levels self.
Proof.
  unfold has_own_levels, sniff.
  destruct data as [c | b | p]; simpl; [discriminate | |].
  - destruct (box_levels b); [discriminate|]. intros _.
    now destruct (sniff_plain_cases (set_contrast self (box_contrast b)) (box_data b))
      as [-> _].
  - intros _. now destruct (sniff_plain_cases self p) as [-> _].
Qed.

Lemma sniff_level_set_ok {Contrast : Type}
      (self : CategoricalSniffer Contrast) (data : pyobj Contrast) :
  level_set_ok (_level_set self) = true ->
  level_set_ok (_level_set (fst (sniff self data))) = true.
Proof.
  assert (Hplain : forall (s : CategoricalSniffer Contrast) p,
             level_set_ok (_level_set s) = true ->
             level_set_ok (_level_set (fst (sniff_plain s p))) = true).
  { intros s p Hs. unfold sniff_plain.
    destruct (bool_dtype p); [reflexivity|].
    destruct (data' <- _categorical_shape_fix p ;; iter data') as [e|items];
      [assumption|].
    pose proof (sniff_loop_ok (_NA_action s) items (_level_set s) Hs) as Hok.
    now destruct (sniff_loop (_NA_action s) (_level_set s) items). }
  intros Hs. unfold sniff.
  destruct data as [c | b | p]; simpl.
  - now destruct (cat_contrast c).
  - destruct (box_levels b); [assumption|]. now apply Hplain.
  - now apply Hplain.
Qed.

Lemma sniff_monotone {Contrast : Type}
      (self : CategoricalSniffer Contrast) (data : pyobj Contrast) (v : pyval) :
  takes_fast_path data = false ->
  PySet.mem v (_level_set self) = true ->
  PySet.mem v (_level_set (fst (sniff self data))) = true.
Proof.
  assert (Hplain : forall (s : CategoricalSniffer Contrast) p,
             bool_dtype p = None ->
             PySet.mem v (_level_set s) = true ->
             PySet.mem v (_level_set (fst (sniff_plain s p))) = true).
  { intros s p Hbd Hs. unfold sniff_plain. rewrite Hbd.
    destruct (data' <- _categorical_shape_fix p ;; iter data') as [e|items];
      [assumption|].
    pose proof (sniff_loop_monotone (_NA_action s) items (_level_set s) v Hs) as Hm.
    now destruct (sniff_loop (_NA_action s) (_level_set s) items). }
  unfold takes_fast_path, is_bool_storage, is_box_with_levels, sniff.
  destruct data as [c | b | p]; simpl.
  - intros _ H. now destruct (cat_contrast c).
  - destruct (box_levels b); [now intros _ H|].
    destruct (bool_dtype (box_data b)) eqn:Hbd; [discriminate|].
    intros _ H. now apply Hplain.
  - destruct (bool_dtype p) eqn:Hbd; [discriminate|].
    intros _ H. now apply Hplain.
Qed.

Lemma same_class (x y k : pyval) :
  py_eq x k = true -> py_eq y k = true -> py_eq x y = true.
Proof.
  intros Hx Hy. apply (py_eq_trans x k y Hx). now rewrite py_eq_sym.
Qed.

Lemma not_both_booleans (x : pyval) :
  py_eq x (PBool true) = true -> py_eq x (PBool false) = true -> False.
Proof.
  intros HT HF. rewrite py_eq_sym in HT.
  pose proof (py_eq_trans _ _ _ HT HF) as H. discriminate.
Qed.

(** What the comparison [s == set([True, False])] accepts: a set that
    holds a value equal to [True], a value equal to [False] and
    nothing else, booleans or not. *)
Lemma true_false_comparison (s : PySet.t) :
  all_distinct s = true ->
  PySet.eq s PySet.true_false
  = occurs_in (PBool true) s && occurs_in (PBool false) s
    && forallb equals_a_boolean s.
Proof.
  unfold PySet.eq, PySet.true_false, PySet.mem, equals_a_boolean, occurs_in.
  destruct s as [|a [|b [|c r]]]; cbn -[py_eq].
  - reflexivity.
  - intros _. rewrite (py_eq_sym (PBool true) a), (py_eq_sym (PBool false) a).
    destruct (py_eq a (PBool true)) eqn:HT, (py_eq a (PBool false)) eqn:HF;
      try reflexivity.
    destruct (not_both_booleans a HT HF).
  - rewrite !orb_false_r, !andb_true_r. intros Hab.
    apply negb_true_iff in Hab.
    rewrite (py_eq_sym (PBool true) a), (py_eq_sym (PBool false) a),
            (py_eq_sym (PBool true) b), (py_eq_sym (PBool false) b).
    destruct (py_eq a (PBool true)) eqn:HaT, (py_eq a (PBool false)) eqn:HaF,
             (py_eq b (PBool true)) eqn:HbT, (py_eq b (PBool false)) eqn:HbF;
      try reflexivity;
      try (destruct (not_both_booleans a HaT HaF));
      try (destruct (not_both_booleans b HbT HbF));
      try (rewrite (same_class a b _ HaT HbT) in Hab; discriminate);
      try (rewrite (same_class a b _ HaF HbF) in Hab; discriminate).
  - intros Hd.
    apply andb_true_iff in Hd as [Ha Hd]. apply negb_true_iff in Ha.
    apply orb_false_iff in Ha as [Hab Ha]. apply orb_false_iff in Ha as [Hac _].
    apply andb_true_iff in Hd as [Hb _]. apply negb_true_iff in Hb.
    apply orb_false_iff in Hb as [Hbc _].
    destruct (py_eq a (PBool true)) eqn:HaT, (py_eq a (PBool false)) eqn:HaF,
             (py_eq b (PBool true)) eqn:HbT, (py_eq b (PBool false)) eqn:HbF,
             (py_eq c (PBool true)) eqn:HcT, (py_eq c (PBool false)) eqn:HcF;
      cbn -[py_eq]; rewrite ?andb_false_r; try reflexivity;
      try (rewrite (same_class a b _ HaT HbT) in Hab; discriminate);
      try (rewrite (same_class a b _ HaF HbF) in Hab; discriminate);
      try (rewrite (same_class a c _ HaT HcT) in Hac; discriminate);
      try (rewrite (same_class a c _ HaF HcF) in Hac; discriminate);
      try (rewrite (same_class b c _ HbT HcT) in Hbc; discriminate);
      try (rewrite (same_class b c _ HbF HcF) in Hbc; discriminate).
Qed.

Lemma In_insert (s : PySet.t) (x v : pyval) :
  In v (PySet.insert s x) -> In v s \/ v = x.
Proof.
  unfold PySet.insert. destruct (PySet.mem x s); [now left|].
  intros H. apply in_app_or in H as [H | [H | []]]; auto.
Qed.

(** Where the members of the level set come from after the loop: the
    set before, the booleans, and the items that are neither missing
    nor booleans. *)
Lemma sniff_loop_origin (NA_action : NAAction) (items : list pyval) :
  forall s,
    Forall (fun v => In v s \/ is_bool v = true \/
                     (In v items /\ is_categorical_NA NA_action v = false /\
                      is_bool v = false))
           (fst (sniff_loop NA_action s items)).
Proof.
  induction items as [|x r IH]; simpl; intros s.
  - apply Forall_forall. intros v Hv. now left.
  - assert (Hweak : forall s',
               (forall v, In v s' -> In v s \/ is_bool v = true \/
                                     (v = x /\ is_categorical_NA NA_action v = false /\
                                      is_bool v = false)) ->
               Forall (fun v => In v s \/ is_bool v = true \/
                                ((x = v \/ In v r) /\
                                 is_categorical_NA NA_action v = false /\
                                 is_bool v = false))
                      (fst (sniff_loop NA_action s' r))).
    { intros s' Hs'. apply (Forall_impl _ (P := fun v =>
          In v s' \/ is_bool v = true \/
          (In v r /\ is_categorical_NA NA_action v = false /\ is_bool v = false)));
        [|apply IH].
      intros v [H | [H | [H1 H2]]]; [|auto|auto].
      destruct (Hs' v H) as [H' | [H' | [-> H']]]; auto. }
    destruct (is_categorical_NA NA_action x) eqn:HNA; [apply Hweak; auto|].
    destruct (is_bool x) eqn:Hb.
    + apply Hweak. intros v Hv. unfold PySet.update_true_false in Hv.
      apply In_insert in Hv as [Hv | ->]; [|now right; left].
      apply In_insert in Hv as [Hv | ->]; [now left | now right; left].
    + unfold PySet.add. destruct (hashable x); simpl.
      * apply Hweak. intros v Hv. apply In_insert in Hv as [Hv | ->]; auto.
      * apply Forall_forall. intros v Hv. now left.
Qed.

Lemma forallb_agree {A : Type} (f g : A -> bool) (l : list A) :
  Forall (fun a => f a = g a) l -> forallb f l = forallb g l.
Proof.
  induction 1 as [|a r Ha _ IH]; simpl; [reflexivity | now rewrite Ha, IH].
Qed.

(** The answer of a scan that starts with an empty level set, when
    every item that is not missing and equals a boolean is one: true
    exactly when the level set is now exactly [{False, True}]. *)
Lemma scan_answer_without_boolean_like_items {Contrast : Type}
      (self : CategoricalSniffer Contrast) (p p' : plain)
      (items : list pyval) (done : bool) :
  _level_set self = [] ->
  bool_dtype p = None ->
  _categorical_shape_fix p = inr p' ->
  iter p' = inr items ->
  forallb (fun v => is_categorical_NA (_NA_action self) v || is_bool v
                    || negb (equals_a_boolean v)) items = true ->
  snd (sniff self (Plain p)) = inr done ->
  done = only_True_and_False (_level_set (fst (sniff self (Plain p)))).
Proof.
  intros Hempty Hbd Hfix Hiter Hitems Hdone.
  destruct (sniff_plain_scan self p p' items Hbd Hfix Hiter) as [Hs Hr].
  change (sniff self (Plain p)) with (sniff_plain self p) in *.
  rewrite Hs. rewrite Hr in Hdone. simpl.
  rewrite Hempty in *.
  pose proof (sniff_loop_ok (_NA_action self) items [] eq_refl) as Hok.
  pose proof (sniff_loop_origin (_NA_action self) items []) as Horigin.
  destruct (sniff_loop (_NA_action self) [] items) as [s' [e|[]]];
    simpl in *; [discriminate|].
  injection Hdone as <-.
  apply andb_true_iff in Hok as [_ Hd].
  rewrite (true_false_comparison s' Hd). unfold only_True_and_False, PySet.mem.
  fold (occurs_in (PBool true) s'). fold (occurs_in (PBool false) s').
  rewrite (forallb_agree equals_a_boolean is_bool s').
  - now destruct (forallb is_bool s'), (occurs_in (PBool true) s'),
      (occurs_in (PBool false) s').
  - apply (Forall_impl _ (P := fun v =>
        In v [] \/ is_bool v = true \/
        (In v items /\ is_categorical_NA (_NA_action self) v = false /\
         is_bool v = false))); [|exact Horigin].
    intros v [[] | [Hb | [Hv [HNA Hb]]]].
    + rewrite Hb. destruct v; try discriminate. now destruct b.
    + rewrite forallb_forall in Hitems. specialize (Hitems v Hv).
      rewrite HNA, Hb in Hitems. simpl in Hitems.
      apply negb_true_iff in Hitems. now rewrite Hitems, Hb.
Qed.

Lemma sniff_chunks_ok {Contrast : Type} (chunks : list (pyobj Contrast)) :
  forall self, level_set_ok (_level_set self) = true ->
               level_set_ok (_level_set (sniff_chunks self chunks)) = true.
Proof.
  induction chunks as [|chunk r IH]; simpl; intros self H; [assumption|].
  now apply IH, sniff_level_set_ok.
Qed.

Lemma sniff_chunks_keeps_NA_action {Contrast : Type}
      (chunks : list (pyobj Contrast)) :
  forall self, _NA_action (sniff_chunks self chunks) = _NA_action self.
Proof.
  induction chunks as [|chunk r IH]; simpl; intros self; [reflexivity|].
  now rewrite IH, sniff_keeps_NA_action.
Qed.

Lemma sniff_chunks_keeps_levels {Contrast : Type}
      (chunks : list (pyobj Contrast)) :
  forallb (fun chunk => negb (has_own_levels chunk)) chunks = true ->
  forall self, _levels (sniff_chunks self chunks) = _levels self.
Proof.
  induction chunks as [|chunk r IH]; simpl; intros H self; [reflexivity|].
  apply andb_true_iff in H as [Hc Hr]. apply negb_true_iff in Hc.
  now rewrite (IH Hr), sniff_keeps_levels.
Qed.

Lemma sniff_chunks_monotone {Contrast : Type}
      (chunks : list (pyobj Contrast)) (v : pyval) :
  forallb (fun chunk => negb (takes_fast_path chunk)) chunks = true ->
  forall self, PySet.mem v (_level_set self) = true ->
               PySet.mem v (_level_set (sniff_chunks self chunks)) = true.
Proof.
  induction chunks as [|chunk r IH]; simpl; intros H self Hv; [assumption|].
  apply andb_true_iff in H as [Hc Hr]. apply negb_true_iff in Hc.
  now apply (IH Hr), sniff_monotone.
Qed.

(** X8: after a scan that returns, the level set holds what it held
    before and what the chunk brings: a value is a member exactly when
    it was one, or equals an item that is not missing, or is [True] or
    [False] and some item that is not missing is a boolean. *)
Theorem X8_scan_level_set
        (Contrast : Type) (self : CategoricalSniffer Contrast)
        (p p' : plain) (items : list pyval) (done : bool) :
  bool_dtype p = None ->
  _categorical_shape_fix p = inr p' ->
  iter p' = inr items ->
  snd (sniff self (Plain p)) = inr done ->
  forall v,
    PySet.mem v (_level_set (fst (sniff self (Plain p))))
    = PySet.mem v (_level_set self)
      || existsb (contributes (_NA_action self) v) items.
Proof.
  intros Hbd Hfix Hiter Hdone v.
  destruct (sniff_plain_scan self p p' items Hbd Hfix Hiter) as [Hs Hr].
  change (sniff self (Plain p)) with (sniff_plain self p) in *.
  rewrite Hs. simpl. apply sniff_loop_members.
  rewrite Hr in Hdone.
  destruct (snd (sniff_loop (_NA_action self) (_level_set self) items))
    as [e|[]]; [discriminate | reflexivity].
Qed.

(** X9: chunks that do not take the fast path never remove a level:
    a member of the level set stays one through any sequence of such
    chunks, also through calls that raise. *)
Theorem X9_scan_keeps_levels
        (Contrast : Type) (self : CategoricalSniffer Contrast)
        (chunks : list (pyobj Contrast)) (v : pyval) :
  forallb (fun chunk => negb (takes_fast_path chunk)) chunks = true ->
  PySet.mem v (_level_set self) = true ->
  PySet.mem v (_level_set (sniff_chunks self chunks)) = true.
Proof.
  intros H Hv. now apply sniff_chunks_monotone.
Qed.

(** X10: sniff on plain data that passes the shape fix and does not
    take the fast path returns exactly when every item is missing or
    hashable, with the answer whether the level set is now
    [{True, False}], and raises [HashError] otherwise. *)
Theorem X10_scan_result
        (Contrast : Type) (self : CategoricalSniffer Contrast)
        (p p' : plain) (items : list pyval) :
  bool_dtype p = None ->
  _categorical_shape_fix p = inr p' ->
  iter p' = inr items ->
  snd (sniff self (Plain p))
  = if forallb (scannable (_NA_action self)) items
    then inr (PySet.eq (_level_set (fst (sniff self (Plain p)))) PySet.true_false)
    else inl (PatsyError HashError).
Proof.
  intros Hbd Hfix Hiter.
  destruct (sniff_plain_scan self p p' items Hbd Hfix Hiter) as [Hs Hr].
  change (sniff self (Plain p)) with (sniff_plain self p).
  rewrite Hr, Hs, sniff_loop_result.
  now destruct (forallb (scannable (_NA_action self)) items).
Qed.

(** X11: explicit levels stay: once the sniffer has levels, from a
    pandas.Categorical, a box or [levels_contrast], no sequence of
    chunks without levels of their own changes the levels that
    [levels_contrast] returns, and they are never sorted again. *)
Theorem X11_explicit_levels_stay
        (Contrast : Type) (sorted : list pyval -> list pyval)
        (self : CategoricalSniffer Contrast) (levels : list pyval)
        (chunks : list (pyobj Contrast)) :
  _levels self = Some levels ->
  forallb (fun chunk => negb (has_own_levels chunk)) chunks = true ->
  fst (snd (levels_contrast sorted (sniff_chunks self chunks))) = levels.
Proof.
  intros Hl Hc. unfold levels_contrast.
  now rewrite (sniff_chunks_keeps_levels chunks Hc self), Hl.
Qed.

Section permutation_facts.

Lemma occurs_in_perm (v : pyval) (l l' : list pyval) :
  Permutation l l' -> occurs_in v l = occurs_in v l'.
Proof.
  induction 1 as [| x l l' _ IH | x y l | l l' l'' _ IH1 _ IH2]; simpl.
  - reflexivity.
  - now rewrite IH.
  - now rewrite !orb_assoc, (orb_comm (py_eq v y)).
  - now rewrite IH1.
Qed.

Lemma forallb_perm {A : Type} (f : A -> bool) (l l' : list A) :
  Permutation l l' -> forallb f l = forallb f l'.
Proof.
  induction 1 as [| x l l' _ IH | x y l | l l' l'' _ IH1 _ IH2]; simpl.
  - reflexivity.
  - now rewrite IH.
  - now rewrite !andb_assoc, (andb_comm (f y)).
  - now rewrite IH1.
Qed.

Lemma all_distinct_perm (l l' : list pyval) :
  Permutation l l' -> all_distinct l = all_distinct l'.
Proof.
  induction 1 as [| x l l' Hp IH | x y l | l l' l'' _ IH1 _ IH2]; simpl.
  - reflexivity.
  - now rewrite IH, (occurs_in_perm x l l' Hp).
  - rewrite (py_eq_sym y x).
    destruct (py_eq x y), (occurs_in y l), (occurs_in x l); reflexivity.
  - now rewrite IH1.
Qed.

Lemma sort_insert_perm (v : pyval) (l : list pyval) :
  Permutation (sort_insert v l) (v :: l).
Proof.
  induction l as [|x r IH]; simpl; [reflexivity|].
  destruct (sort_le x v); [|reflexivity].
  rewrite IH. apply perm_swap.
Qed.

Lemma sorted_example_perm (l : list pyval) : Permutation (sorted_example l) l.
Proof.
  unfold sorted_example.
  assert (H : forall acc, Permutation
                            (fold_left (fun s v => sort_insert v s) l acc)
                            (acc ++ l)).
  { induction l as [|x r IH]; simpl; intros acc.
    - now rewrite app_nil_r.
    - rewrite IH, sort_insert_perm. simpl. apply Permutation_middle. }
  exact (H []).
Qed.

End permutation_facts.

(** What [levels_contrast] returns when the sniffer has only scanned. *)
Lemma levels_contrast_of_scans {Contrast : Type}
      (sorted : list pyval -> list pyval) (self : CategoricalSniffer Contrast) :
  _levels self = None ->
  fst (snd (levels_contrast sorted self)) = sorted (_level_set self).
Proof.
  intros H. unfold levels_contrast. now rewrite H.
Qed.

(** X12: the levels that [levels_contrast] returns for a new sniffer
    that was fed chunks without levels of their own are hashable and
    pairwise distinct, whatever the chunks were and whichever calls
    raised, provided the ordering helper only permutes. *)
Theorem X12_finalized_levels_distinct
        (Contrast : Type) (sorted : list pyval -> list pyval)
        (NA_action : NAAction) (chunks : list (pyobj Contrast)) :
  (forall l, Permutation (sorted l) l) ->
  forallb (fun chunk => negb (has_own_levels chunk)) chunks = true ->
  let self := sniff_chunks (CategoricalSniffer_init NA_action) chunks in
  let levels := fst (snd (levels_contrast sorted self)) in
  forallb hashable levels = true /\ all_distinct levels = true.
Proof.
  intros Hperm Hc self levels. subst levels.
  rewrite levels_contrast_of_scans
    by (subst self; now rewrite (sniff_chunks_keeps_levels chunks Hc)).
  rewrite (forallb_perm hashable _ _ (Hperm _)),
          (all_distinct_perm _ _ (Hperm _)).
  apply andb_true_iff.
  exact (sniff_chunks_ok chunks (CategoricalSniffer_init NA_action) eq_refl).
Qed.

(* ------------------------------------------------------------------ *)
(** * Sniffing, then encoding *)
(* ------------------------------------------------------------------ *)

Lemma contributes_self (NA_action : NAAction) (v : pyval) :
  is_categorical_NA NA_action v = false -> contributes NA_action v v = true.
Proof.
  intros H. unfold contributes. rewrite H. simpl.
  destruct (is_bool v) eqn:Hb; [|apply py_eq_refl].
  destruct v; try discriminate. now destruct b.
Qed.

(** After a chunk has been scanned, its items that are not missing are
    members of the level set, and stay so. *)
Lemma sniffed_items_are_levels {Contrast : Type}
      (NA_action : NAAction) (chunks : list plain)
      (p p' : plain) (items : list pyval) (v : pyval) :
  forallb (fun q => match bool_dtype q with None => true | Some _ => false end)
          chunks = true ->
  In p chunks ->
  _categorical_shape_fix p = inr p' ->
  iter p' = inr items ->
  forallb (scannable NA_action) items = true ->
  In v items ->
  is_categorical_NA NA_action v = false ->
  forall self : CategoricalSniffer Contrast,
    _NA_action self = NA_action ->
    PySet.mem v (_level_set (sniff_chunks self (map Plain chunks))) = true.
Proof.
  intros Hc Hp Hfix Hiter Hscan Hv HNA.
  induction chunks as [|q r IH]; simpl in *; intros self Hself; [contradiction|].
  apply andb_true_iff in Hc as [Hq Hr].
  destruct Hp as [-> | Hp].
  - assert (Hbd : bool_dtype p = None) by now destruct (bool_dtype p).
    destruct (sniff_plain_scan self p p' items Hbd Hfix Hiter) as [Hs _].
    apply sniff_chunks_monotone.
    + clear - Hr. induction r as [|x r IH]; simpl in *; [reflexivity|].
      apply andb_true_iff in Hr as [Hx Hr]. rewrite (IH Hr), andb_true_r.
      unfold takes_fast_path, is_bool_storage. simpl.
      now destruct (bool_dtype x).
    + rewrite Hs. simpl. rewrite sniff_loop_members.
      * apply orb_true_iff. right. apply existsb_exists. exists v.
        split; [assumption|]. rewrite Hself. now apply contributes_self.
      * rewrite sniff_loop_result, Hself. now rewrite Hscan.
  - apply (IH Hr Hp). rewrite <- Hself.
    exact (sniff_keeps_NA_action self (Plain q)).
Qed.

(** X13: levels found by scanning can encode what was scanned.  A new
    sniffer is fed plain chunks that do not take the fast path; one of
    them has rank at most one, its items are missing or hashable, and
    those that are not missing hold no NaN (a NaN that a float array
    hands out while encoding is a new object and equals no level).
    Then [categorical_to_int] of that chunk against the levels of
    [levels_contrast] returns, with -1 for each missing item and, for
    each other item, a position whose level equals the item. *)
Theorem X13_sniffed_levels_encode
        (Contrast : Type) (sorted : list pyval -> list pyval)
        (NA_action : NAAction) (chunks : list plain)
        (p p' : plain) (items : list pyval) :
  (forall l, Permutation (sorted l) l) ->
  forallb (fun q => match bool_dtype q with None => true | Some _ => false end)
          chunks = true ->
  In p chunks ->
  _categorical_shape_fix p = inr p' ->
  iter p' = inr items ->
  forallb (scannable NA_action) items = true ->
  forallb (fun v => is_categorical_NA NA_action v || nan_free v) items = true ->
  let self : CategoricalSniffer Contrast :=
    sniff_chunks (CategoricalSniffer_init NA_action) (map Plain chunks) in
  let levels := fst (snd (levels_contrast sorted self)) in
  exists out,
    categorical_to_int (Contrast := Contrast) (Plain p) levels NA_action
    = inr {| values := out; codes_index := series_index p |} /\
    Forall2 (general_code levels NA_action) items out.
Proof.
  intros Hperm Hc Hp Hfix Hiter Hscan _ self levels.
  assert (Hown : forallb (fun chunk : pyobj Contrast => negb (has_own_levels chunk))
                         (map Plain chunks) = true).
  { clear. induction chunks as [|q r IH]; simpl; [reflexivity | assumption]. }
  assert (Hlevels : levels = sorted (_level_set self)).
  { subst levels. apply levels_contrast_of_scans. subst self.
    now rewrite (sniff_chunks_keeps_levels _ Hown). }
  assert (Hok : level_set_ok (_level_set self) = true).
  { subst self. now apply sniff_chunks_ok. }
  apply andb_true_iff in Hok as [Hhash _].
  assert (Hlv : forallb hashable levels = true).
  { now rewrite Hlevels, (forallb_perm hashable _ _ (Hperm _)). }
  assert (Henc : forallb (encodable levels NA_action) items = true).
  { apply forallb_forall. intros v Hv. unfold encodable.
    pose proof (proj1 (forallb_forall _ _) Hscan v Hv) as Hscan_v.
    unfold scannable in Hscan_v.
    destruct (is_categorical_NA NA_action v) eqn:HNA; [reflexivity|].
    simpl in *. rewrite Hscan_v. simpl.
    rewrite Hlevels, (occurs_in_perm v _ _ (Hperm _)).
    exact (sniffed_items_are_levels NA_action chunks p p' items v
             Hc Hp Hfix Hiter Hscan Hv HNA
             (CategoricalSniffer_init NA_action) eq_refl). }
  assert (Hbd : bool_dtype p' = None).
  { rewrite (shape_fix_bool_dtype p p' Hfix).
    rewrite forallb_forall in Hc. specialize (Hc p Hp).
    now destruct (bool_dtype p). }
  destruct (general_path_ok p p' levels items NA_action Hfix Hbd Hiter Hlv Henc)
    as [out [Hout Hall]].
  exists out. split.
  - simpl. now rewrite Hout, (series_index_shape_fix p p' Hfix).
  - apply (Forall2_impl_In _ _ _ _ Hall). intros v c _ Hvc.
    unfold general_code.
    destruct (is_categorical_NA NA_action v); [assumption|].
    now apply last_index_round_trip.
Qed.

Lemma Forall2_map_left {A B C : Type} (f : A -> B) (P : B -> C -> Prop)
      (l : list A) :
  forall l', Forall2 P (map f l) l' -> Forall2 (fun a c => P (f a) c) l l'.
Proof.
  induction l as [|a r IH]; simpl; intros l' H; inversion H; subst;
    constructor; auto.
Qed.

(** A boolean array against hashable levels that hold [False] and
    [True]: [categorical_to_int] returns, by either path. *)
Lemma bool_array_ok (bs : list bool) (idx : option (list pyval))
      (levels : list pyval) (NA_action : NAAction) :
  forallb hashable levels = true ->
  occurs_in (PBool false) levels = true ->
  occurs_in (PBool true) levels = true ->
  exists out,
    categorical_to_int_plain
      (Array {| ndim := 1; array_items := BoolData bs; index := idx |})
      levels NA_action
    = inr {| values := out; codes_index := idx |} /\
    Forall2 (fun b c => round_trip levels (PBool b) c \/
                        (is_categorical_NA NA_action (PBool b) = true /\ c = -1))
            bs out.
Proof.
  intros Hlv HF HT.
  destruct (DictFacts.level_to_int_hashable levels Hlv) as [m [Hm Hget]].
  unfold categorical_to_int_plain. simpl. rewrite Hm. simpl.
  rewrite (False_is_0_and_True_is_1_spec levels m Hget).
  assert (Hgen : exists out,
             encode_general
               (Array {| ndim := 1; array_items := BoolData bs; index := idx |})
               levels NA_action m
             = inr {| values := out; codes_index := idx |} /\
             Forall2 (fun b c => round_trip levels (PBool b) c \/
                                 (is_categorical_NA NA_action (PBool b) = true /\
                                  c = -1))
                     bs out).
  { unfold encode_general. simpl.
    destruct (encode_loop_ok levels NA_action m Hget (map PBool bs))
      as [out [Hout Hall]].
    - apply forallb_forall. intros v Hv. apply in_map_iff in Hv as [b [<- _]].
      unfold encodable. simpl. destruct b; rewrite ?HF, ?HT; apply orb_true_r.
    - rewrite Hout. simpl. exists out. split; [reflexivity|].
      apply Forall2_map_left in Hall.
      apply (Forall2_impl_In _ _ _ _ Hall). intros b c _ Hbc.
      destruct (is_categorical_NA NA_action (PBool b)); [now right|].
      left. now apply last_index_round_trip. }
  destruct (last_index_from 0 levels (PBool false)) as [i|] eqn:Hi;
    [| apply last_index_from_none in Hi; congruence].
  destruct (i =? 0) eqn:Hi0; [|exact Hgen].
  destruct (last_index_from 0 levels (PBool true)) as [j|] eqn:Hj;
    [| apply last_index_from_none in Hj; congruence].
  simpl. destruct (j =? 1) eqn:Hj1; [|exact Hgen].
  apply Z.eqb_eq in Hi0, Hj1. subst i j.
  exists (map Z.b2z bs). split; [reflexivity|].
  clear - Hi Hj. induction bs as [|b bs IH]; simpl; constructor; [|assumption].
  left. destruct b; simpl; now apply last_index_round_trip.
Qed.

Lemma levels_after_bool_array {Contrast : Type}
      (sorted : list pyval -> list pyval) (self : CategoricalSniffer Contrast)
      (bs : list bool) (n : positive) (idx : option (list pyval)) :
  _levels self = None ->
  fst (snd (levels_contrast sorted
              (fst (sniff self
                      (Plain (Array {| ndim := n; array_items := BoolData bs;
                                       index := idx |}))))))
  = sorted PySet.true_false.
Proof.
  intros H. unfold levels_contrast. simpl. now rewrite H.
Qed.

(** X14: a boolean array can be encoded against the levels sniffed
    from it.  For a sniffer without levels, whatever it has scanned
    before, sniffing a boolean array of rank one and encoding it
    against the levels of [levels_contrast] returns, never raising the
    [KeyError] of the fast-path test: each code is a position whose
    level equals the item, or -1 for an item that the policy takes as
    missing. *)
Theorem X14_bool_array_sniffed_then_encoded
        (Contrast : Type) (sorted : list pyval -> list pyval)
        (self : CategoricalSniffer Contrast) (NA_action : NAAction)
        (bs : list bool) (idx : option (list pyval)) :
  (forall l, Permutation (sorted l) l) ->
  _levels self = None ->
  let data := Array {| ndim := 1; array_items := BoolData bs; index := idx |} in
  let levels :=
    fst (snd (levels_contrast sorted (fst (sniff self (Plain data))))) in
  exists out,
    categorical_to_int (Contrast := Contrast) (Plain data) levels NA_action
    = inr {| values := out; codes_index := idx |} /\
    Forall2 (fun b c => round_trip levels (PBool b) c \/
                        (is_categorical_NA NA_action (PBool b) = true /\ c = -1))
            bs out.
Proof.
  intros Hperm Hl data levels. subst data levels.
  rewrite (levels_after_bool_array sorted self bs 1 idx Hl).
  apply bool_array_ok.
  - now rewrite (forallb_perm hashable _ _ (Hperm _)).
  - now rewrite (occurs_in_perm _ _ _ (Hperm _)).
  - now rewrite (occurs_in_perm _ _ _ (Hperm _)).
Qed.

(** X15: the fast path of sniff forgets what was scanned before.
    After a boolean array has been sniffed, by a sniffer without
    levels, the levels of [levels_contrast] are [True] and [False]
    only: encoding a chunk with an item that is not missing and equals
    neither raises a [PatsyError], also when that chunk was sniffed
    earlier. *)
Theorem X15_fast_path_forgets_levels
        (Contrast : Type) (sorted : list pyval -> list pyval)
        (self : CategoricalSniffer Contrast) (NA_action : NAAction)
        (bs : list bool) (n : positive) (idx : option (list pyval))
        (p p' : plain) (items : list pyval) :
  (forall l, Permutation (sorted l) l) ->
  _levels self = None ->
  _categorical_shape_fix p = inr p' ->
  bool_dtype p' = None ->
  iter p' = inr items ->
  existsb (fun v => negb (is_categorical_NA NA_action v)
                    && negb (py_eq v (PBool true))
                    && negb (py_eq v (PBool false))) items = true ->
  let bools := Array {| ndim := n; array_items := BoolData bs; index := idx |} in
  let self' := sniff_chunks self [Plain p; Plain bools] in
  let levels := fst (snd (levels_contrast sorted self')) in
  (forall v, occurs_in v levels = py_eq v (PBool true) || py_eq v (PBool false)) /\
  exists e,
    categorical_to_int (Contrast := Contrast) (Plain p) levels NA_action
    = inl (PatsyError e).
Proof.
  intros Hperm Hl Hfix Hbd Hiter Hex bools self' levels.
  assert (Hlevels : levels = sorted PySet.true_false).
  { subst levels self' bools.
    apply (levels_after_bool_array sorted (fst (sniff self (Plain p))) bs n idx).
    now rewrite (sniff_keeps_levels self (Plain p)). }
  assert (Hocc : forall v, occurs_in v levels
                           = py_eq v (PBool true) || py_eq v (PBool false)).
  { intros v. rewrite Hlevels, (occurs_in_perm v _ _ (Hperm _)). simpl.
    now rewrite orb_false_r. }
  split; [exact Hocc|].
  assert (Hlv : forallb hashable levels = true).
  { now rewrite Hlevels, (forallb_perm hashable _ _ (Hperm _)). }
  assert (Henc : forallb (encodable levels NA_action) items = false).
  { apply existsb_exists in Hex as [v [Hv Hneq]].
    destruct (forallb (encodable levels NA_action) items) eqn:Hall; [|reflexivity].
    rewrite forallb_forall in Hall. specialize (Hall v Hv).
    unfold encodable in Hall. rewrite Hocc in Hall.
    destruct (is_categorical_NA NA_action v), (py_eq v (PBool true)),
      (py_eq v (PBool false)), (hashable v); discriminate. }
  destruct (forallb_false_split _ _ Henc) as [before [v [after [Heq [Hb Hv]]]]].
  subst items. simpl.
  rewrite (general_path_first_error p p' levels before after v NA_action
             Hfix Hbd Hiter Hlv Hb Hv).
  eauto.
Qed.

(** X16: a list of booleans and a boolean array are sniffed alike by
    a new sniffer, for a policy that takes neither [True] nor [False]
    as missing, unless they are empty: the empty list leaves the level
    set empty and the answer is false, the empty boolean array gives
    the levels [True] and [False] and the answer true. *)
Theorem X16_bool_list_and_bool_array
        (Contrast : Type) (NA_action : NAAction) (bs : list bool) :
  is_categorical_NA NA_action (PBool false) = false ->
  is_categorical_NA NA_action (PBool true) = false ->
  let self : CategoricalSniffer Contrast := CategoricalSniffer_init NA_action in
  sniff self (Plain (bool_array bs))
  = (set_level_set self PySet.true_false, inr true) /\
  sniff self (Plain (Val (PList (map PBool bs))))
  = match bs with
    | [] => (self, inr false)
    | _ :: _ => sniff self (Plain (bool_array bs))
    end.
Proof.
  intros HF HT self. split; [reflexivity|].
  assert (Hloop : forall bs' s,
             s = [] \/ s = PySet.true_false ->
             sniff_loop NA_action s (map PBool bs')
             = (match bs' with [] => s | _ :: _ => PySet.true_false end, inr tt)).
  { induction bs' as [|b r IH]; intros s Hs; simpl; [reflexivity|].
    replace (is_categorical_NA NA_action (PBool b)) with false
      by (now destruct b).
    rewrite (IH (PySet.update_true_false s)).
    - destruct r; [|reflexivity].
      now destruct Hs as [-> | ->].
    - right. now destruct Hs as [-> | ->]. }
  unfold sniff, sniff_plain. simpl.
  rewrite (Hloop bs [] (or_introl eq_refl)).
  now destruct bs.
Qed.

(** X17: the shape fix raises only [InvalidShape], and only on an
    array of rank greater than one; what it returns can be iterated,
    is no text, and is left as it is by the shape fix. *)
Theorem X17_shape_fix_is_idempotent (data : plain) :
  (forall e, _categorical_shape_fix data = inl e ->
             e = PatsyError InvalidShape /\
             exists a, data = Array a /\ (1 < ndim a)%positive) /\
  (forall data', _categorical_shape_fix data = inr data' ->
                 _categorical_shape_fix data' = inr data' /\
                 is_text data' = false /\
                 (exists items, iter data' = inr items) /\
                 (iterable data = true -> is_text data = false -> data' = data)).
Proof.
  split.
  - intros e H. split; [now apply (shape_fix_error data)|].
    destruct data as [v|a]; simpl in H; unfold ret, raise in H.
    + destruct v; discriminate.
    + exists a. split; [reflexivity|].
      destruct (1 <? ndim a)%positive eqn:Hn; [|discriminate].
      now apply Pos.ltb_lt.
  - intros data' H. split; [|split; [|split]].
    + destruct data as [v|a]; simpl in H; unfold ret, raise in H.
      * destruct v; injection H as <-; reflexivity.
      * destruct (1 <? ndim a)%positive eqn:Hn; [discriminate|].
        injection H as <-. simpl. now rewrite Hn.
    + destruct data as [v|a]; simpl in H; unfold ret, raise in H.
      * destruct v; injection H as <-; reflexivity.
      * destruct (1 <? ndim a)%positive; [discriminate|].
        now injection H as <-.
    + now apply (shape_fix_iter data).
    + destruct data as [v|a]; simpl in H; unfold ret, raise in H.
      * destruct v; injection H as <-; simpl; intros; congruence.
      * destruct (1 <? ndim a)%positive; [discriminate|].
        now injection H as <-.
Qed.

(* ------------------------------------------------------------------ *)
(** * Further properties of C *)
(* ------------------------------------------------------------------ *)

(** X18: boxes compose.  Boxing twice is boxing once with, for the
    contrast and for the levels independently, the outer argument when
    it is not [None] and the inner one otherwise; the data is never
    boxed twice. *)
Theorem X18_boxing_composes
        (Contrast D : Type)
        (c1 c2 : option Contrast) (l1 l2 : option (list pyval)) :
  (forall data : D,
      C (inr (C (inl data) c1 l1)) c2 l2
      = C (inl data) (or_inherit c2 c1) (or_inherit l2 l1)) /\
  (forall box : _CategoricalBox Contrast D,
      C (inr (C (inr box) c1 l1)) c2 l2
      = C (inr box) (or_inherit c2 c1) (or_inherit l2 l1) /\
      box_data (C (inr (C (inr box) c1 l1)) c2 l2) = box_data box).
Proof.
  split; [intros data | intros [d c l]; split];
    destruct c1, c2, l1, l2; reflexivity.
Qed.





(* ------------------------------------------------------------------ *)
(** * Concrete runs of the further properties *)
(* ------------------------------------------------------------------ *)

Lemma X1_general_path_returns_iff_witness :
  (_categorical_shape_fix example_list = inr example_list /\
   bool_dtype example_list = None /\
   iter example_list = inr [PStr "a"; PNone; PStr "b"]) /\
  ((exists out,
       categorical_to_int_plain example_list example_levels NAAction_None_NaN
       = inr out) <->
   forallb hashable example_levels = true /\
   forallb (encodable example_levels NAAction_None_NaN)
           [PStr "a"; PNone; PStr "b"] = true).
Proof.
  split; [repeat split|].
  apply (X1_general_path_returns_iff
           example_list example_list example_levels
           [PStr "a"; PNone; PStr "b"] NAAction_None_NaN); reflexivity.
Defined.

Lemma X2_last_position_wins_witness :
  categorical_to_int_plain example_list example_levels NAAction_None_NaN
  = inr {| values := [2; -1; 1]; codes_index := None |} /\
  Forall2 (fun v c => if is_categorical_NA NAAction_None_NaN v then c = -1
                      else last_position example_levels v c)
          [PStr "a"; PNone; PStr "b"] [2; -1; 1].
Proof.
  split; [reflexivity|].
  apply (X2_last_position_wins
           example_list example_list example_levels
           [PStr "a"; PNone; PStr "b"] NAAction_None_NaN
           {| values := [2; -1; 1]; codes_index := None |}); reflexivity.
Defined.

Lemma X3_one_code_per_item_witness :
  categorical_to_int_plain example_list example_levels NAAction_None_NaN
  = inr {| values := [2; -1; 1]; codes_index := None |} /\
  (exists data' items,
      _categorical_shape_fix example_list = inr data' /\
      iter data' = inr items /\
      List.length [2; -1; 1] = List.length items) /\
  (None : option (list pyval)) = series_index example_list.
Proof.
  split; [reflexivity|].
  apply (X3_one_code_per_item
           example_list example_levels NAAction_None_NaN
           {| values := [2; -1; 1]; codes_index := None |}); reflexivity.
Defined.

Lemma X4_codes_in_range_witness :
  categorical_to_int_plain example_list example_levels NAAction_None_NaN
  = inr {| values := [2; -1; 1]; codes_index := None |} /\
  Forall (fun c => c = -1 \/ 0 <= c < Z.of_nat (List.length example_levels))
         [2; -1; 1].
Proof.
  split; [reflexivity|].
  apply (X4_codes_in_range
           example_list example_levels NAAction_None_NaN
           {| values := [2; -1; 1]; codes_index := None |}); reflexivity.
Defined.


Lemma X8_scan_level_set_witness :
  let self := CategoricalSniffer_init (Contrast := unit) NAAction_None_NaN in
  snd (sniff self (Plain example_list)) = inr false /\
  forall v,
    PySet.mem v (_level_set (fst (sniff self (Plain example_list))))
    = PySet.mem v (_level_set self)
      || existsb (contributes (_NA_action self) v) [PStr "a"; PNone; PStr "b"].
Proof.
  split; [reflexivity|].
  apply (X8_scan_level_set
           unit (CategoricalSniffer_init NAAction_None_NaN)
           example_list example_list [PStr "a"; PNone; PStr "b"] false);
    reflexivity.
Defined.

Lemma X9_scan_keeps_levels_witness :
  let self := fst (sniff (CategoricalSniffer_init (Contrast := unit) NAAction_nothing)
                         (Plain (Val (PList [PInt 10])))) in
  PySet.mem (PInt 10) (_level_set self) = true /\
  PySet.mem (PInt 10)
            (_level_set (sniff_chunks self [Plain example_list;
                                            Plain (Val (PList [PList []]))]))
  = true.
Proof.
  split; [reflexivity|].
  apply (X9_scan_keeps_levels
           unit
           (fst (sniff (CategoricalSniffer_init NAAction_nothing)
                       (Plain (Val (PList [PInt 10])))))
           [Plain example_list; Plain (Val (PList [PList []]))] (PInt 10));
    reflexivity.
Defined.

Lemma X10_scan_result_witness :
  let self := CategoricalSniffer_init (Contrast := unit) NAAction_nothing in
  let data := Val (PList [PStr "a"; PList []]) in
  (bool_dtype data = None /\
   _categorical_shape_fix data = inr data /\
   iter data = inr [PStr "a"; PList []]) /\
  snd (sniff self (Plain data)) = inl (PatsyError HashError).
Proof.
  split; [repeat split|].
  apply (X10_scan_result
           unit (CategoricalSniffer_init NAAction_nothing)
           (Val (PList [PStr "a"; PList []])) (Val (PList [PStr "a"; PList []]))
           [PStr "a"; PList []]); reflexivity.
Defined.

Lemma X11_explicit_levels_stay_witness :
  let box := Box (C (inl (Val (PList [PInt 1; PInt 2]))) (Some "FOO"%string)
                    (Some [PInt 3; PInt 2; PInt 1])) in
  let self := fst (sniff (CategoricalSniffer_init NAAction_nothing) box) in
  let chunks := [Box (C (inl (Val (PList [PInt 4; PInt 2]))) None None)] in
  _levels self = Some [PInt 3; PInt 2; PInt 1] /\
  fst (snd (levels_contrast sorted_example (sniff_chunks self chunks)))
  = [PInt 3; PInt 2; PInt 1].
Proof.
  split; [reflexivity|].
  apply (X11_explicit_levels_stay
           string sorted_example
           (fst (sniff (CategoricalSniffer_init NAAction_nothing)
                       (Box (C (inl (Val (PList [PInt 1; PInt 2])))
                               (Some "FOO"%string)
                               (Some [PInt 3; PInt 2; PInt 1])))))
           [PInt 3; PInt 2; PInt 1]
           [Box (C (inl (Val (PList [PInt 4; PInt 2]))) None None)]);
    reflexivity.
Defined.

Lemma X12_finalized_levels_distinct_witness :
  let self := sniff_chunks (CategoricalSniffer_init (Contrast := unit) NAAction_nothing)
                           (map Plain example_chunks) in
  let levels := fst (snd (levels_contrast sorted_example self)) in
  levels = [PInt 10; PInt 20; PInt 30] /\
  forallb hashable levels = true /\ all_distinct levels = true.
Proof.
  split; [reflexivity|].
  apply (X12_finalized_levels_distinct
           unit sorted_example NAAction_nothing (map Plain example_chunks));
    [exact sorted_example_perm | reflexivity].
Defined.

Lemma X13_sniffed_levels_encode_witness :
  let self := sniff_chunks (CategoricalSniffer_init (Contrast := unit) NAAction_nothing)
                           (map Plain example_chunks) in
  let levels := fst (snd (levels_contrast sorted_example self)) in
  let p := Val (PList [PInt 20]) in
  (In p example_chunks /\ _categorical_shape_fix p = inr p /\
   iter p = inr [PInt 20] /\
   forallb (fun v => is_categorical_NA NAAction_nothing v || nan_free v)
           [PInt 20] = true) /\
  exists out,
    categorical_to_int (Contrast := unit) (Plain p) levels NAAction_nothing
    = inr {| values := out; codes_index := series_index p |} /\
    Forall2 (general_code levels NAAction_nothing) [PInt 20] out.
Proof.
  split; [repeat split; right; left; reflexivity|].
  apply (X13_sniffed_levels_encode
           unit sorted_example NAAction_nothing example_chunks
           (Val (PList [PInt 20])) (Val (PList [PInt 20])) [PInt 20]);
    [exact sorted_example_perm | reflexivity | right; left; reflexivity
     | reflexivity | reflexivity | reflexivity | reflexivity].
Defined.

Lemma X14_bool_array_sniffed_then_encoded_witness :
  let self := CategoricalSniffer_init (Contrast := unit) NAAction_None_NaN in
  let data := bool_array [true; false] in
  let levels :=
    fst (snd (levels_contrast sorted_example (fst (sniff self (Plain data))))) in
  levels = [PBool false; PBool true] /\
  exists out,
    categorical_to_int (Contrast := unit) (Plain data) levels NAAction_None_NaN
    = inr {| values := out; codes_index := None |} /\
    Forall2 (fun b c => round_trip levels (PBool b) c \/
                        (is_categorical_NA NAAction_None_NaN (PBool b) = true /\
                         c = -1))
            [true; false] out.
Proof.
  split; [reflexivity|].
  apply (X14_bool_array_sniffed_then_encoded
           unit sorted_example (CategoricalSniffer_init NAAction_None_NaN)
           NAAction_None_NaN [true; false] None);
    [exact sorted_example_perm | reflexivity].
Defined.

Lemma X15_fast_path_forgets_levels_witness :
  let self := CategoricalSniffer_init (Contrast := unit) NAAction_nothing in
  let p := Val (PList [PInt 10; PInt 20]) in
  let self' := sniff_chunks self [Plain p; Plain (bool_array [true])] in
  let levels := fst (snd (levels_contrast sorted_example self')) in
  snd (sniff self (Plain p)) = inr false /\
  (forall v, occurs_in v levels = py_eq v (PBool true) || py_eq v (PBool false)) /\
  exists e,
    categorical_to_int (Contrast := unit) (Plain p) levels NAAction_nothing
    = inl (PatsyError e).
Proof.
  split; [reflexivity|].
  apply (X15_fast_path_forgets_levels
           unit sorted_example (CategoricalSniffer_init NAAction_nothing)
           NAAction_nothing [true] 1 None
           (Val (PList [PInt 10; PInt 20])) (Val (PList [PInt 10; PInt 20]))
           [PInt 10; PInt 20]);
    [exact sorted_example_perm | reflexivity | reflexivity | reflexivity
     | reflexivity | reflexivity].
Defined.

Lemma X16_bool_list_and_bool_array_witness :
  let self := CategoricalSniffer_init (Contrast := unit) NAAction_None_NaN in
  sniff self (Plain (bool_array [true]))
  = (set_level_set self PySet.true_false, inr true) /\
  sniff self (Plain (Val (PList (map PBool [true]))))
  = sniff self (Plain (bool_array [true])).
Proof.
  apply (X16_bool_list_and_bool_array unit NAAction_None_NaN [true]);
    reflexivity.
Defined.
